(** * sls wrapper: a shallow embedding of [wrapper.go] and its properties

    The Go package [sls] drives the [sls] command line tool and a few
    language toolchains.  Everything it does to the outside world goes
    through [os/exec], [os.Stat], [ioutil.ReadFile], [time.Now] and
    [time.Sleep]; the embedding threads an explicit record of what the
    outside world answers ([World]) and an explicit log of what the program
    did to it ([Sys]).  *)

From Stdlib Require Import ZArith String Ascii DecimalString DecimalZ Lia.
From stdpp Require Import gmap strings list.

(** ** The pieces of Go's [strings] and [strconv] that the wrapper calls *)

(** [strings.HasPrefix(s, prefix)]. *)
Fixpoint HasPrefix (s prefix : string) : bool :=
  match prefix, s with
  | EmptyString, _ => true
  | String _ _, EmptyString => false
  | String p prefix', String c s' =>
      if Ascii.eqb c p then HasPrefix s' prefix' else false
  end.

(** [strings.Contains(s, substr)]. *)
Fixpoint Contains (s substr : string) : bool :=
  HasPrefix s substr ||
  match s with
  | EmptyString => false
  | String _ s' => Contains s' substr
  end.

(** The scan of [strings.Replace(s, old, new, -1)] for a non-empty [old]:
    [skip] counts the bytes of a matched instance of [old] that are still
    to be dropped, so instances are taken leftmost first and never
    overlap. *)
Fixpoint replace_scan (old new : string) (skip : nat) (s : string) : string :=
  match s with
  | EmptyString => EmptyString
  | String c s' =>
      match skip with
      | S k => replace_scan old new k s'
      | O =>
          if HasPrefix s old
          then new +:+ replace_scan old new (String.length old - 1) s'
          else String c (replace_scan old new 0 s')
      end
  end.

(** [strings.Replace(s, old, new, -1)]: every non-overlapping instance of
    [old] replaced by [new].  The wrapper only calls it with a non-empty
    literal for [old]; Go's rule for an empty [old] (insert between UTF-8
    sequences) is not part of this model, which leaves [s] alone then. *)
Definition Replace (s old new : string) : string :=
  match old with
  | EmptyString => s
  | String _ _ => if String.eqb old new then s else replace_scan old new 0 s
  end.

(** [strconv.FormatInt(i, 10)]. *)
Definition FormatInt (i : Z) : string := NilZero.string_of_int (Z.to_int i).

(** The placeholder that [serverless.yml] uses for the run suffix. *)
Definition placeholder : string := "${opt:suffix}".

(** One second as a [time.Duration] (nanoseconds). *)
Definition Second : Z := 1000000000.

(** ** Data model *)

Definition YamlName : string := "serverless.yml".
Definition slsRetries : nat := 10.

(** A Go [error]: the text of [Error()] and whether [os.IsNotExist]
    recognises it.  [errors.New] builds a plain one. *)
Record error := mkError { Error : string; IsNotExist : bool }.

Definition errors_New (text : string) : error := mkError text false.

Record FunctionMeta := mkFunctionMeta {
  Name : string;
  Handler : string;
  Description : string;
  Runtime : string;
  MemorySize : string
}.

(** The anonymous struct of the [Provider] field. *)
Record ProviderMeta := mkProviderMeta {
  provider_Name : string;
  provider_Project : string;
  provider_Stage : string
}.

Record ServiceStack := mkServiceStack {
  stack_StackId : string;
  stack_Provider : ProviderMeta;
  stack_Functions : gmap string FunctionMeta
}.

Record Wrapper := mkWrapper {
  provider : string;
  slsPath : string;
  yamlDirPath : string;
  stack : ServiceStack;
  suffix : string;
  Opts : gmap string string
}.

(** The zero value [ServiceStack{}]. *)
Definition zeroServiceStack : ServiceStack :=
  mkServiceStack "" (mkProviderMeta "" "" "") ∅.

(** Assignments to single fields, as the methods perform them. *)
Definition with_Name (v : FunctionMeta) (name : string) : FunctionMeta :=
  mkFunctionMeta name (Handler v) (Description v) (Runtime v) (MemorySize v).

Definition with_Functions (st : ServiceStack) (fs : gmap string FunctionMeta) : ServiceStack :=
  mkServiceStack (stack_StackId st) (stack_Provider st) fs.

Definition with_suffix (w : Wrapper) (sfx : string) : Wrapper :=
  mkWrapper (provider w) (slsPath w) (yamlDirPath w) (stack w) sfx (Opts w).

Definition with_stack (w : Wrapper) (st : ServiceStack) : Wrapper :=
  mkWrapper (provider w) (slsPath w) (yamlDirPath w) st (suffix w) (Opts w).

Definition with_Opts (w : Wrapper) (opts : gmap string string) : Wrapper :=
  mkWrapper (provider w) (slsPath w) (yamlDirPath w) (stack w) (suffix w) opts.

(** ** The outside world *)

(** The [exec.Cmd] that [execCmd] hands to [cmd.Start]: program, the
    arguments after the program name, [Dir] and [Env].  A nil [Env] (the
    empty list) makes the child inherit the environment of the parent. *)
Record Cmd := mkCmd {
  cmd_command : string;
  cmd_Args : list string;
  cmd_Dir : string;
  cmd_Env : list string
}.

(** One of the two goroutines that [execCmd] starts, each running
    [io.Copy] from a pipe of the child into a buffer: the bytes it has
    written to the buffer by the time [io.Copy] returns, and the error that
    [io.Copy] returns and the goroutine then assigns to [errStdout] or
    [errStderr].  Nothing makes [execCmd] wait for the goroutine, so the
    world also says where the goroutine is when [execCmd] goes on after
    [cmd.Wait]: whether it has ended when its error variable is tested,
    and, if it has not, how many of its bytes are in the buffer when the
    buffer is read. *)
Record CopyRun := mkCopyRun {
  copied : string;
  copyErr : option error;
  endedAtTest : bool;
  copiedAtRead : nat
}.

(** The first [n] bytes of [s]. *)
Fixpoint firstBytes (n : nat) (s : string) : string :=
  match n, s with
  | S n', String c s' => String c (firstBytes n' s')
  | _, _ => EmptyString
  end.

(** The error variable of a goroutine when [execCmd] tests it: nil until
    the goroutine has assigned it. *)
Definition errAtTest (c : CopyRun) : option error :=
  if endedAtTest c then copyErr c else None.

(** The buffer of a goroutine when [execCmd] reads it. *)
Definition bufAtRead (c : CopyRun) : string :=
  if endedAtTest c then copied c else firstBytes (copiedAtRead c) (copied c).

(** What one child process does: the result of [cmd.Start], the runs of
    the two copying goroutines, and the result of [cmd.Wait]. *)
Record ProcResult := mkProcResult {
  startErr : option error;
  stdoutCopy : CopyRun;
  stderrCopy : CopyRun;
  waitErr : option error
}.

(** [errStdout], [errStderr] and [stdoutBuf.String()] as [execCmd] finds
    them after [cmd.Wait]. *)
Definition errStdout (r : ProcResult) : option error := errAtTest (stdoutCopy r).

Definition errStderr (r : ProcResult) : option error := errAtTest (stderrCopy r).

Definition stdoutBuf (r : ProcResult) : string := bufAtRead (stdoutCopy r).

(** Answers of the operating system and of the libraries outside the
    repository.  [Stat], [UnixNano] and [Run] answer the k-th call of their
    kind, so that the file system, the clock and the tools may change from
    one call to the next. *)
Record World := mkWorld {
  LookPath : string -> string * option error;
  ReadFile : string -> string * option error;
  Unmarshal : string -> ServiceStack -> ServiceStack * option error;
  filepath_Join : string -> string -> string;
  path_Join : string -> string -> string;
  TrimSpace : string -> string;
  Stat : nat -> string -> option error;
  UnixNano : nat -> Z;
  Run : nat -> Cmd -> ProcResult
}.

(** What the program did to the world, in order. *)
Inductive Event :=
  | EvStat (path : string)
  | EvNow
  | EvExec (c : Cmd)
  | EvSleep (d : Z).

Record Sys := mkSys {
  trace : list Event;
  nStat : nat;
  nNow : nat;
  nExec : nat
}.

Definition initSys : Sys := mkSys [] 0 0 0.

(** State passing over [Sys]. *)
Definition M (A : Type) : Type := Sys -> A * Sys.

Definition ret {A} (a : A) : M A := fun s => (a, s).

Definition bind {A B} (m : M A) (k : A -> M B) : M B :=
  fun s => let (a, s') := m s in k a s'.

Notation "'let*' x ':=' m 'in' k" := (bind m (fun x => k))
  (at level 10, x pattern, m at level 100, k at level 200).

(** The subprocesses started in a trace, oldest first. *)
Definition started (tr : list Event) : list Cmd :=
  omap (fun e => match e with EvExec c => Some c | _ => None end) tr.

(** The delays slept in a trace. *)
Definition slept (tr : list Event) : list Z :=
  omap (fun e => match e with EvSleep d => Some d | _ => None end) tr.

(** The paths handed to [os.Stat] in a trace. *)
Definition statted (tr : list Event) : list string :=
  omap (fun e => match e with EvStat p => Some p | _ => None end) tr.

(** ** The wrapper *)

Section Wrapper.

Variable W : World.

(** The calls that reach the outside world. *)
Definition os_Stat (path : string) : M (option error) :=
  fun s => (Stat W (nStat s) path,
            mkSys (trace s ++ [EvStat path]) (S (nStat s)) (nNow s) (nExec s)).

Definition time_Now_UnixNano : M Z :=
  fun s => (UnixNano W (nNow s),
            mkSys (trace s ++ [EvNow]) (nStat s) (S (nNow s)) (nExec s)).

Definition time_Sleep (d : Z) : M unit :=
  fun s => (tt, mkSys (trace s ++ [EvSleep d]) (nStat s) (nNow s) (nExec s)).

(** [cmd.Start] and all that follows in the child, up to [cmd.Wait]. *)
Definition cmd_run (c : Cmd) : M ProcResult :=
  fun s => (Run W (nExec s) c,
            mkSys (trace s ++ [EvExec c]) (nStat s) (nNow s) (S (nExec s))).

Definition getSLSPath : string * option error := LookPath W "sls".

Definition ParseConfig (provider yamlDirPath : string) : option ServiceStack * option error :=
  let (yamlData, err) := ReadFile W (filepath_Join W yamlDirPath YamlName) in
  match err with
  | Some e => (None, Some e)
  | None =>
      let slsData := zeroServiceStack in
      let (slsData, err) := Unmarshal W yamlData slsData in
      match err with
      | Some e => (None, Some e)
      | None =>
          if negb (String.eqb provider (provider_Name (stack_Provider slsData)))
          then (None,
                Some (errors_New ("expected provider " +:+ provider +:+
                                  ", found provider: " +:+
                                  provider_Name (stack_Provider slsData))))
          else (Some slsData, None)
      end
  end.

(** A nil pointer is [None].  [ParseConfig] never returns a nil stack
    without an error, so the branch for that pair is never taken. *)
Definition New (provider yamlDirPath : string) : option Wrapper * option error :=
  let (path, err) := getSLSPath in
  match err with
  | Some _ => (None, Some (errors_New "serverless framework is not installed"))
  | None =>
      let (stack, err) := ParseConfig provider yamlDirPath in
      match stack, err with
      | _, Some e => (None, Some e)
      | None, None => (None, None)
      | Some stack, None =>
          (Some (mkWrapper provider path yamlDirPath stack "" ∅), None)
      end
  end.

Definition ListFunctionsFromYaml (w : Wrapper) : gmap string FunctionMeta :=
  stack_Functions (stack w).

Definition StackId (w : Wrapper) : string :=
  Replace (stack_StackId (stack w)) "-${opt:suffix}" "".

Definition Project (w : Wrapper) : string := provider_Project (stack_Provider (stack w)).

Definition Stage (w : Wrapper) : string := provider_Stage (stack_Provider (stack w)).

(** [execCmd].  The parameter [env] is never stored in the [exec.Cmd]:
    [exec.Command] leaves [Env] nil and the method only sets [Dir].  After
    [cmd.Wait] the method tests [errStdout] and [errStderr] and reads
    [stdoutBuf] as they are then, without waiting for the two goroutines
    that write them. *)
Definition execCmd (w : Wrapper) (env : list string) (dir command : string)
    (cmdArgs : list string) : M (string * option error) :=
  let cwd := dir in
  let cmd := mkCmd command cmdArgs cwd [] in
  let* r := cmd_run cmd in
  match startErr r with
  | Some err => ret ("", Some err)
  | None =>
      let err := waitErr r in
      if bool_decide (errStdout r <> None) || bool_decide (errStderr r <> None)
      then ret ("", Some (errors_New "failed to capture stdout or stderr"))
      else ret (TrimSpace W (stdoutBuf r), err)
  end.

(** The [for opt, optVal := range w.Opts] loop of [execSlsCmd].  Go leaves
    the order of a map iteration open; [map_to_list] is one such order. *)
Definition appendOpts (slsCmd : list string) (opts : gmap string string) : list string :=
  foldl (fun slsCmd kv => (slsCmd ++ ["--" +:+ kv.1]) ++ [kv.2]) slsCmd (map_to_list opts).

(** The [for err != nil && retries > 0] loop of [execSlsCmd], entered with
    the result of the first call. *)
Fixpoint retryLoop (w : Wrapper) (funcDir : string) (slsCmd : list string)
    (retries : nat) (r : string * option error) : M (string * option error) :=
  match snd r, retries with
  | Some _, S retries' =>
      let* r := execCmd w [] funcDir "sls" slsCmd in
      let* _ := time_Sleep (5 * Second) in
      retryLoop w funcDir slsCmd retries' r
  | _, _ => ret r
  end.

Definition execSlsCmd (w : Wrapper) (funcDir : string) (slsCmd : list string)
    : M (string * option error) :=
  let slsCmd := slsCmd ++ ["--suffix"] in
  let slsCmd := slsCmd ++ [suffix w] in
  let slsCmd := appendOpts slsCmd (Opts w) in
  let retries := slsRetries in
  let* r := execCmd w [] funcDir "sls" slsCmd in
  retryLoop w funcDir slsCmd retries r.

Definition platformPath (w : Wrapper) (platform : string) : M (string * bool * option error) :=
  let srcPath := path_Join W (yamlDirPath w) platform in
  let* err := os_Stat srcPath in
  match err with
  | Some e =>
      if IsNotExist e then ret ("", false, None) else ret ("", false, Some e)
  | None => ret (srcPath, true, None)
  end.

Definition buildJava (w : Wrapper) (version : string) : M (option error) :=
  let* (javaPath, javaInStack, err) := platformPath w version in
  match err with
  | Some e => ret (Some e)
  | None =>
      if negb javaInStack then ret None
      else
        let* (_, err) := execCmd w [] javaPath "mvn" ["package"] in
        match err with
        | Some e => if HasPrefix (Error e) "WARNING" then ret None else ret err
        | None => ret err
        end
  end.

Definition buildCsharp (w : Wrapper) : M (option error) :=
  let* (csharpPath, csharpInStack, err) := platformPath w "csharp" in
  match err with
  | Some e => ret (Some e)
  | None =>
      if negb csharpInStack then ret None
      else
        let* (_, err) := execCmd w [] csharpPath "dotnet" ["restore"] in
        match err with
        | Some e => ret (Some e)
        | None =>
            let* (_, err) :=
              execCmd w [] csharpPath "dotnet"
                ["lambda"; "package"; "--configuration"; "release"; "--framework";
                 "netcoreapp2.1"; "--output-package"; "./deploy.zip"] in
            ret err
        end
  end.

Definition buildGolang (w : Wrapper) : M (option error) :=
  let* (golangPath, goInStack, err) := platformPath w "golang" in
  match err with
  | Some e => ret (Some e)
  | None =>
      if negb goInStack then ret None
      else
        let env := ["GOOS=linux"; "GO111MODULE=on"] in
        let* (_, err) :=
          execCmd w env golangPath "go"
            ["build"; "-ldflags"; "-s"; "-ldflags"; "-w"; "-o"; "bin/hello"; "main.go"] in
        ret err
  end.

(** The [for k, v := range w.stack.Functions] loop of [DeployStack], which
    fills a fresh map. *)
Definition renameFunctions (sfx : string) (fs : gmap string FunctionMeta)
    : gmap string FunctionMeta :=
  foldl (fun functions kv =>
           let v := with_Name kv.2 (Replace (Name kv.2) "${opt:suffix}" sfx) in
           <[kv.1 := v]> functions)
        ∅ (map_to_list fs).

(** [DeployStack] assigns to [w.suffix] and [w.stack.Functions]; the
    wrapper after the call is returned next to the error. *)
Definition DeployStack (w : Wrapper) : M (Wrapper * option error) :=
  let* now := time_Now_UnixNano in
  let w := with_suffix w (FormatInt now) in
  let functions := renameFunctions (suffix w) (stack_Functions (stack w)) in
  let w := with_stack w (with_Functions (stack w) functions) in
  let* err := buildJava w "java8" in
  match err with
  | Some e => ret (w, Some e)
  | None =>
  let* err := buildJava w "java11" in
  match err with
  | Some e => ret (w, Some e)
  | None =>
  let* err := buildCsharp w in
  match err with
  | Some e => ret (w, Some e)
  | None =>
  let* err := buildGolang w in
  match err with
  | Some e => ret (w, Some e)
  | None =>
  let* (_, err) := execSlsCmd w (yamlDirPath w) ["deploy"; "--no-aws-s3-accelerate"] in
  ret (w, err)
  end end end end.

Definition RemoveStack (w : Wrapper) : M (option error) :=
  let* (_, err) := execSlsCmd w (yamlDirPath w) ["remove"] in
  ret err.

Definition ListFunction (w : Wrapper) : M (option error) :=
  let* (_, err) := execSlsCmd w (yamlDirPath w) ["deploy"; "list"; "functions"] in
  ret err.

End Wrapper.

(** ** Vocabulary of the statements *)

(** The events a computation adds to the trace of the state it starts in. *)
Definition emitted {A} (m : M A) (s : Sys) : list Event :=
  drop (length (trace s)) (trace (snd (m s))).

(** The state after one [os.Stat], and after one process. *)
Definition afterStat (s : Sys) (p : string) : Sys :=
  mkSys (trace s ++ [EvStat p]) (S (nStat s)) (nNow s) (nExec s).

Definition afterExec (s : Sys) (c : Cmd) : Sys :=
  mkSys (trace s ++ [EvExec c]) (nStat s) (nNow s) (S (nExec s)).

Definition afterNow (s : Sys) : Sys :=
  mkSys (trace s ++ [EvNow]) (nStat s) (S (nNow s)) (nExec s).

(** The wrapper once [DeployStack] has assigned the suffix [sfx] and the
    rewritten function map. *)
Definition renamed (w : Wrapper) (sfx : string) : Wrapper :=
  mkWrapper (provider w) (slsPath w) (yamlDirPath w)
    (with_Functions (stack w) (renameFunctions sfx (stack_Functions (stack w))))
    sfx (Opts w).

(** What a build step for the directory [p] adds to the trace: the
    [os.Stat] of [p], then its processes [cmds]. *)
Definition stepEvents (p : string) (cmds : list Cmd) : list Event :=
  EvStat p :: map EvExec cmds.

(** The programs of the build steps. *)
Definition mvnPackage (dir : string) : Cmd := mkCmd "mvn" ["package"] dir [].

Definition dotnetRestore (dir : string) : Cmd := mkCmd "dotnet" ["restore"] dir [].

Definition dotnetPackage (dir : string) : Cmd :=
  mkCmd "dotnet"
    ["lambda"; "package"; "--configuration"; "release"; "--framework";
     "netcoreapp2.1"; "--output-package"; "./deploy.zip"] dir [].

Definition goBuild (dir : string) : Cmd :=
  mkCmd "go" ["build"; "-ldflags"; "-s"; "-ldflags"; "-w"; "-o"; "bin/hello"; "main.go"]
    dir [].

(** Whether the byte [a] occurs in [s]. *)
Fixpoint inString (a : ascii) (s : string) : bool :=
  match s with
  | EmptyString => false
  | String c s' => Ascii.eqb a c || inString a s'
  end.

(** [strings.Join(elems, sep)]. *)
Fixpoint Join (elems : list string) (sep : string) : string :=
  match elems with
  | [] => ""
  | e :: rest =>
      match rest with
      | [] => e
      | _ :: _ => e +:+ sep +:+ Join rest sep
      end
  end.

(** The flags that the options contribute, in the order of [appendOpts]. *)
Definition optFlags (opts : gmap string string) : list string :=
  flat_map (fun kv => ["--" +:+ kv.1; kv.2]) (map_to_list opts).

(** The argument list of every [sls] process that [execSlsCmd] starts. *)
Definition slsArgs (w : Wrapper) (slsCmd : list string) : list string :=
  appendOpts ((slsCmd ++ ["--suffix"]) ++ [suffix w]) (Opts w).

(** The events of one retry of [execSlsCmd]. *)
Definition retryRound (c : Cmd) : list Event := [EvExec c; EvSleep (5 * Second)].

(** The [sls] process of [execSlsCmd]. *)
Definition slsCmdOf (w : Wrapper) (funcDir : string) (slsCmd : list string) : Cmd :=
  mkCmd "sls" (slsArgs w slsCmd) funcDir [].

(** What [execCmd] returns when its child is the [k]-th process of the run. *)
Definition attempt (W : World) (w : Wrapper) (dir command : string)
    (cmdArgs : list string) (k : nat) : string * option error :=
  fst (execCmd W w [] dir command cmdArgs (mkSys [] 0 0 k)).

(** The result of running [c] as the [k]-th process. *)
Definition attemptCmd (W : World) (w : Wrapper) (c : Cmd) (k : nat) : string * option error :=
  attempt W w (cmd_Dir c) (cmd_command c) (cmd_Args c) k.

(** What a client of the package can do with a wrapper that [New] returned:
    call the three operations, and assign to the exported field [Opts]. *)
Inductive Call :=
  | CallDeployStack
  | CallRemoveStack
  | CallListFunction
  | CallSetOpt (opt optVal : string).

Definition call (W : World) (c : Call) (w : Wrapper) : M Wrapper :=
  match c with
  | CallDeployStack => let* (w', _) := DeployStack W w in ret w'
  | CallRemoveStack => let* _ := RemoveStack W w in ret w
  | CallListFunction => let* _ := ListFunction W w in ret w
  | CallSetOpt opt optVal => ret (with_Opts w (<[opt := optVal]> (Opts w)))
  end.

Fixpoint calls (W : World) (cs : list Call) (w : Wrapper) : M Wrapper :=
  match cs with
  | [] => ret w
  | c :: cs' => let* w' := call W c w in calls W cs' w'
  end.

(** ** Concrete worlds for the examples *)

Definition isSpaceASCII (c : ascii) : bool :=
  let n := nat_of_ascii c in (Nat.leb 9 n && Nat.leb n 13) || Nat.eqb n 32.

Fixpoint trimLeftASCII (s : string) : string :=
  match s with
  | EmptyString => EmptyString
  | String c s' => if isSpaceASCII c then trimLeftASCII s' else s
  end.

(** [strings.TrimSpace] on ASCII text. *)
Definition trimSpaceASCII (s : string) : string :=
  String.rev (trimLeftASCII (String.rev (trimLeftASCII s))).

Definition joinSlash (a b : string) : string := a +:+ "/" +:+ b.

Definition demoStack : ServiceStack :=
  mkServiceStack "svc-${opt:suffix}" (mkProviderMeta "aws" "proj" "dev")
    {[ "hello" := mkFunctionMeta "hello-${opt:suffix}" "bin/hello" "says hello" "go1.x" "128" ]}.

(** A goroutine that has copied [out] without error and has ended before
    [execCmd] looks. *)
Definition copyEnded (out : string) : CopyRun := mkCopyRun out None true 0.

Definition procOk : ProcResult :=
  mkProcResult None (copyEnded " done ") (copyEnded "") None.

Definition procExit (text : string) : ProcResult :=
  mkProcResult None (copyEnded "") (copyEnded "") (Some (errors_New text)).

(** A process that exits with status 0 while the goroutine for its standard
    output is still copying: [cmd.Wait] closes the pipe, [execCmd] goes on
    with eleven bytes in the buffer, and [io.Copy] then fails on the closed
    pipe. *)
Definition procLateCopy : ProcResult :=
  mkProcResult None
    (mkCopyRun "Serverless: Stack removal in progress"
       (Some (errors_New "read |0: file already closed")) false 11)
    (copyEnded "") None.

(** A world with [sls] installed, a readable descriptor that parses to
    [demoStack], the runtime directories chosen by [present], a clock that
    starts at [1572000000000000000] and the tools chosen by [run]. *)
Definition demoWorld (present : string -> bool) (run : nat -> Cmd -> ProcResult) : World :=
  mkWorld
    (fun _ => ("/usr/local/bin/sls", None))
    (fun _ => ("service: svc-${opt:suffix}", None))
    (fun _ _ => (demoStack, None))
    joinSlash joinSlash trimSpaceASCII
    (fun _ path =>
       if present path then None
       else Some (mkError "stat: no such file or directory" true))
    (fun k => (1572000000000000000 + Z.of_nat k)%Z)
    run.

Definition demoWrapper : Wrapper :=
  mkWrapper "aws" "/usr/local/bin/sls" "app" demoStack "" ∅.

(** No runtime directory; every process exits with an error. *)
Definition worldAlwaysFailing : World :=
  demoWorld (fun _ => false) (fun _ _ => procExit "exit status 1").

(** No runtime directory; the first two processes fail, the later ones
    succeed. *)
Definition worldThirdTimeLucky : World :=
  demoWorld (fun _ => false)
    (fun k _ => if Nat.ltb k 2 then procExit "exit status 1" else procOk).

(** No runtime directory; every process is [procLateCopy]. *)
Definition worldLateCopy : World :=
  demoWorld (fun _ => false) (fun _ _ => procLateCopy).

(** Only [app/golang] exists; every process succeeds. *)
Definition worldGolang : World :=
  demoWorld (String.eqb "app/golang") (fun _ _ => procOk).

(** Only [app/java8] exists; [mvn] ends with the error text [text], every
    other program succeeds. *)
Definition worldJava (text : string) : World :=
  demoWorld (String.eqb "app/java8")
    (fun _ c => if String.eqb (cmd_command c) "mvn" then procExit text else procOk).

(** A stack whose identifier carries the placeholder without a hyphen. *)
Definition plainStack : ServiceStack :=
  mkServiceStack "svc${opt:suffix}" (mkProviderMeta "aws" "proj" "dev") ∅.

Definition plainWrapper : Wrapper :=
  mkWrapper "aws" "/usr/local/bin/sls" "app" plainStack "" ∅.

(** A descriptor that declares another provider. *)
Definition gcpStack : ServiceStack :=
  mkServiceStack "svc" (mkProviderMeta "gcp" "proj" "dev") ∅.

(** A world in which the descriptor parses to [st], every runtime
    directory exists and every process succeeds. *)
Definition worldOf (st : ServiceStack) : World :=
  mkWorld
    (fun _ => ("/usr/local/bin/sls", None))
    (fun _ => ("service: svc", None))
    (fun _ _ => (st, None))
    joinSlash joinSlash trimSpaceASCII
    (fun _ _ => None) (fun k => Z.of_nat k) (fun _ _ => procOk).

Definition worldGcp : World := worldOf gcpStack.

Definition worldPlain : World := worldOf plainStack.

(** Only [app/csharp] exists; the first process fails, the later ones
    succeed. *)
Definition worldCsharp : World :=
  demoWorld (String.eqb "app/csharp")
    (fun k _ => if Nat.eqb k 0 then procExit "exit status 1" else procOk).

(** A world like [worldOf demoStack], except that every [os.Stat] fails
    with an error that is not a not-exist error. *)
Definition worldStatDenied : World :=
  mkWorld
    (fun _ => ("/usr/local/bin/sls", None))
    (fun _ => ("service: svc", None))
    (fun _ _ => (demoStack, None))
    joinSlash joinSlash trimSpaceASCII
    (fun _ _ => Some (mkError "stat: permission denied" false))
    (fun k => Z.of_nat k) (fun _ _ => procOk).

(** A wrapper with two options set. *)
Definition optsWrapper : Wrapper :=
  mkWrapper "aws" "/usr/local/bin/sls" "app" demoStack ""
    (<["region" := "eu-west-1"]> (<["verbose" := "true"]> ∅)).

(** The command lines of the package, for a wrapper on the directory
    [dirPath]: the four build tools in their runtime directories, and [sls]
    in [dirPath] with one of the three subcommands, then "--suffix", a
    suffix and option flags.  All of them with a nil [Env]. *)
Definition slsSubcommands : list (list string) :=
  [["deploy"; "--no-aws-s3-accelerate"]; ["remove"]; ["deploy"; "list"; "functions"]].

Definition allowedProcess (W : World) (dirPath : string) (c : Cmd) : Prop :=
  c = mvnPackage (path_Join W dirPath "java8") \/
  c = mvnPackage (path_Join W dirPath "java11") \/
  c = dotnetRestore (path_Join W dirPath "csharp") \/
  c = dotnetPackage (path_Join W dirPath "csharp") \/
  c = goBuild (path_Join W dirPath "golang") \/
  exists slsCmd sfx flags,
    slsCmd ∈ slsSubcommands /\
    c = mkCmd "sls" (slsCmd ++ ["--suffix"; sfx] ++ flags) dirPath [].

(** The state [s'] comes after [s], and every process started in between
    satisfies [P]. *)
Definition extends (P : Cmd -> Prop) (s s' : Sys) : Prop :=
  exists evs, trace s' = trace s ++ evs /\ Forall P (started evs).

(** A function with its name blanked: what [DeployStack] never touches. *)
Definition unnamed (v : FunctionMeta) : FunctionMeta := with_Name v "".

(** * Properties *)

(** ** Strings *)

Example Replace_ex1 : Replace "hello-${opt:suffix}" placeholder "17" = "hello-17".
Proof. reflexivity. Qed.

Example Replace_ex2 :
  Replace "${opt:suffix${opt:suffix}}-${opt:suffix}" placeholder "17" = "${opt:suffix17}-17".
Proof. reflexivity. Qed.

Example FormatInt_ex :
  FormatInt (-1572000000000000000) = "-1572000000000000000" /\ FormatInt 0 = "0".
Proof. split; reflexivity. Qed.

Example trimSpaceASCII_ex : trimSpaceASCII "  a b
 " = "a b".
Proof. reflexivity. Qed.

Example DeployStack_ex :
  let r := DeployStack worldThirdTimeLucky demoWrapper initSys in
  snd (fst r) = None /\
  suffix (fst (fst r)) = "1572000000000000000" /\
  stack_Functions (stack (fst (fst r))) !! "hello" =
    Some (mkFunctionMeta "hello-1572000000000000000" "bin/hello" "says hello" "go1.x" "128") /\
  length (started (trace (snd r))) = 3.
Proof. vm_compute. auto. Qed.

Section StringFacts.

Implicit Types (s p q old new : string) (a c d : ascii).

Lemma HasPrefix_app p s : HasPrefix (p +:+ s) p = true.
Proof.
  induction p as [|c p IH]; simpl; [by destruct s|].
  by rewrite Ascii.eqb_refl.
Qed.

Lemma HasPrefix_cons c s a q :
  HasPrefix (String c s) (String a q) = true <-> c = a /\ HasPrefix s q = true.
Proof.
  simpl. destruct (Ascii.eqb_spec c a); intuition congruence.
Qed.

Lemma HasPrefix_empty q : HasPrefix "" q = true -> q = "".
Proof. by destruct q. Qed.

Lemma Contains_cons c s q :
  Contains (String c s) q = HasPrefix (String c s) q || Contains s q.
Proof. done. Qed.

Lemma inString_cons a c s : inString a (String c s) = false <-> a <> c /\ inString a s = false.
Proof.
  simpl. destruct (Ascii.eqb_spec a c); simpl; intuition congruence.
Qed.

(** A match of [q] that begins inside [p] cannot run into a byte that [q]
    does not have. *)
Lemma HasPrefix_before a t q p :
  inString a q = false ->
  HasPrefix (p +:+ String a t) q = true -> HasPrefix p q = true.
Proof.
  revert q. induction p as [|c p IH]; intros [|x q] Hq H; try done.
  - apply inString_cons in Hq as [Hne _]. apply HasPrefix_cons in H as [-> _]. done.
  - apply inString_cons in Hq as [_ Hq].
    change (String c p +:+ String a t) with (String c (p +:+ String a t)) in H.
    apply HasPrefix_cons in H as [-> H]. apply HasPrefix_cons. eauto.
Qed.

(** The three equations of the scan. *)
Lemma replace_scan_skip old new p s :
  replace_scan old new (String.length p) (p +:+ s) = replace_scan old new 0 s.
Proof. induction p as [|c p IH]; simpl; auto. Qed.

Lemma replace_scan_match old new s :
  old <> "" ->
  replace_scan old new 0 (old +:+ s) = new +:+ replace_scan old new 0 s.
Proof.
  destruct old as [|a old']; [done|intros _].
  change (String a old' +:+ s) with (String a (old' +:+ s)).
  cbn [replace_scan].
  change (String a (old' +:+ s)) with (String a old' +:+ s).
  rewrite HasPrefix_app. cbn [String.length].
  replace (S (String.length old') - 1) with (String.length old') by lia.
  by rewrite replace_scan_skip.
Qed.

Lemma replace_scan_step old new c s :
  HasPrefix (String c s) old = false ->
  replace_scan old new 0 (String c s) = String c (replace_scan old new 0 s).
Proof. intros H. cbn [replace_scan]. by rewrite H. Qed.

Lemma replace_scan_absent old new s :
  Contains s old = false -> replace_scan old new 0 s = s.
Proof.
  induction s as [|c s IH]; [done|].
  rewrite Contains_cons. intros [H1 H2]%orb_false_elim.
  rewrite replace_scan_step by done. by rewrite IH.
Qed.

(** When the first byte of [old] does not come back later in [old], the
    leftmost instance of [old] in [p ++ old ++ rest] is the one after [p],
    provided [p] has none. *)
Lemma replace_scan_first a old' new p rest :
  inString a old' = false ->
  Contains p (String a old') = false ->
  replace_scan (String a old') new 0 (p +:+ String a old' +:+ rest) =
  p +:+ new +:+ replace_scan (String a old') new 0 rest.
Proof.
  intros Ha. induction p as [|c p IH]; intros Hp.
  - exact (replace_scan_match (String a old') new rest ltac:(done)).
  - rewrite Contains_cons in Hp. apply orb_false_elim in Hp as [H1 H2].
    change (String c p +:+ ?x) with (String c (p +:+ x)).
    rewrite replace_scan_step; [by rewrite IH|].
    apply not_true_is_false. intros [-> H]%HasPrefix_cons.
    change (String a old' +:+ rest) with (String a (old' +:+ rest)) in H.
    apply HasPrefix_before in H; [|done].
    apply not_true_iff_false in H1. apply H1, HasPrefix_cons. done.
Qed.

Lemma Join_cons2 e e' rest sep :
  Join (e :: e' :: rest) sep = e +:+ sep +:+ Join (e' :: rest) sep.
Proof. done. Qed.

Lemma replace_scan_Join a old' new parts :
  inString a old' = false ->
  Forall (fun p => Contains p (String a old') = false) parts ->
  replace_scan (String a old') new 0 (Join parts (String a old')) = Join parts new.
Proof.
  intros Ha. induction 1 as [|e rest He Hrest IH]; [done|].
  destruct rest as [|e' rest].
  - by apply replace_scan_absent.
  - rewrite !Join_cons2, replace_scan_first by done. by rewrite IH.
Qed.

(** [Replace] splits at the instances of [old] and joins with [new]. *)
Lemma Replace_Join a old' new parts :
  inString a old' = false ->
  Forall (fun p => Contains p (String a old') = false) parts ->
  Replace (Join parts (String a old')) (String a old') new = Join parts new.
Proof.
  intros Ha Hparts. unfold Replace.
  destruct (String.eqb_spec (String a old') new) as [<-|_]; [done|].
  by apply replace_scan_Join.
Qed.

(** A prefix of the output that avoids the first byte of [new] is a prefix
    of the input. *)
Lemma HasPrefix_replace_scan old new d new' q s :
  new = String d new' -> inString d q = false ->
  HasPrefix (replace_scan old new 0 s) q = true -> HasPrefix s q = true.
Proof.
  intros ->. revert q. induction s as [|c s IH]; intros [|x q] Hq H; try done.
  apply inString_cons in Hq as [Hne Hq].
  cbn [replace_scan] in H. destruct (HasPrefix (String c s) old) eqn:E.
  - change (String d new' +:+ ?y) with (String d (new' +:+ y)) in H.
    by apply HasPrefix_cons in H as [-> _].
  - apply HasPrefix_cons in H as [-> H]. apply HasPrefix_cons. eauto.
Qed.

Lemma Contains_app_fresh a old' new s :
  inString a new = false ->
  Contains s (String a old') = false ->
  Contains (new +:+ s) (String a old') = false.
Proof.
  intros Hnew Hs. induction new as [|n new IH]; [done|].
  change (String n new +:+ s) with (String n (new +:+ s)).
  rewrite Contains_cons.
  apply inString_cons in Hnew as [Hne Hnew]. rewrite IH by done.
  rewrite orb_false_r. apply not_true_is_false.
  by intros [-> _]%HasPrefix_cons.
Qed.

(** No instance of [old] is left once every instance has been replaced by
    a non-empty [new] that shares no byte with [old]. *)
Lemma Contains_replace_scan a old' new s skip :
  new <> "" ->
  (forall c, inString c new = true -> inString c (String a old') = false) ->
  Contains (replace_scan (String a old') new skip s) (String a old') = false.
Proof.
  intros Hne Hdisj.
  assert (Ha : inString a new = false).
  { destruct (inString a new) eqn:E; [|done].
    apply Hdisj in E. simpl in E. by rewrite Ascii.eqb_refl in E. }
  destruct new as [|d new']; [done|clear Hne].
  assert (Hd : inString d old' = false).
  { specialize (Hdisj d). simpl in Hdisj. rewrite Ascii.eqb_refl in Hdisj.
    specialize (Hdisj eq_refl). by apply orb_false_elim in Hdisj as [_ ?]. }
  revert skip. induction s as [|c s IH]; intros skip; [done|].
  destruct skip as [|k]; cbn [replace_scan]; [|apply IH].
  destruct (HasPrefix (String c s) (String a old')) eqn:E.
  - apply Contains_app_fresh; [done|apply IH].
  - rewrite Contains_cons, IH, orb_false_r.
    apply not_true_is_false. intros [-> H]%HasPrefix_cons.
    apply HasPrefix_replace_scan with (d := d) (new' := new') in H; [|done..].
    apply not_true_iff_false in E. by apply E, HasPrefix_cons.
Qed.

Lemma Replace_no_instance a old' new s :
  new <> "" ->
  (forall c, inString c new = true -> inString c (String a old') = false) ->
  Contains (Replace s (String a old') new) (String a old') = false.
Proof.
  intros Hne Hdisj. unfold Replace.
  destruct (String.eqb_spec (String a old') new) as [<-|_].
  - specialize (Hdisj a). simpl in Hdisj. rewrite Ascii.eqb_refl in Hdisj.
    by specialize (Hdisj eq_refl).
  - by apply Contains_replace_scan.
Qed.

(** [FormatInt] writes an optional minus sign and digits, at least one. *)
Lemma string_of_uint_chars u c :
  inString c (NilEmpty.string_of_uint u) = true -> inString c "0123456789" = true.
Proof.
  induction u; cbn [NilEmpty.string_of_uint inString]; try done;
    intros [->%Ascii.eqb_eq|H]%orb_prop; auto.
Qed.

Lemma FormatInt_chars i c :
  inString c (FormatInt i) = true -> inString c "-0123456789" = true.
Proof.
  unfold FormatInt, NilZero.string_of_int, NilZero.string_of_uint.
  assert (Hu : forall u, inString c match u with
                 | Decimal.Nil => "0" | _ => NilEmpty.string_of_uint u end = true ->
               inString c "0123456789" = true).
  { intros u. destruct u; try apply string_of_uint_chars.
    cbn [inString]. by intros [->%Ascii.eqb_eq|?]%orb_prop. }
  destruct (Z.to_int i) as [u|u];
    change (inString c "-0123456789")
      with (Ascii.eqb c "-"%char || inString c "0123456789").
  - intros H%Hu. by rewrite H, orb_true_r.
  - change (inString c (String "-"%char ?x)) with (Ascii.eqb c "-"%char || inString c x).
    intros [->|H%Hu]%orb_prop; [done|]. by rewrite H, orb_true_r.
Qed.

Lemma FormatInt_nonempty i : FormatInt i <> "".
Proof.
  unfold FormatInt, NilZero.string_of_int, NilZero.string_of_uint.
  destruct (Z.to_int i) as [u|u]; [|done]. by destruct u.
Qed.

Lemma FormatInt_fresh i c :
  inString c (FormatInt i) = true -> inString c placeholder = false.
Proof.
  intros H%FormatInt_chars. cbn [inString] in H.
  repeat (apply orb_prop in H as [->%Ascii.eqb_eq|H]; [done|]). done.
Qed.

Lemma Contains_HasPrefix s q : HasPrefix s q = true -> Contains s q = true.
Proof. destruct s; simpl; intros ->; done. Qed.

Lemma Contains_app_r p s q : Contains s q = true -> Contains (p +:+ s) q = true.
Proof.
  intros H. induction p as [|c p IH]; [done|].
  change (String c p +:+ s) with (String c (p +:+ s)).
  rewrite Contains_cons, IH. apply orb_true_r.
Qed.

(** The middle of a concatenation occurs in it. *)
Lemma Contains_middle p q s : Contains (p +:+ q +:+ s) q = true.
Proof. apply Contains_app_r, Contains_HasPrefix, HasPrefix_app. Qed.

Lemma Contains_end p q : Contains (p +:+ q) q = true.
Proof.
  apply Contains_app_r, Contains_HasPrefix.
  induction q as [|c q IH]; [done|]. simpl. by rewrite Ascii.eqb_refl.
Qed.

End StringFacts.

(** ** Traces *)

Lemma emitted_app {A} (m : M A) (s : Sys) (evs : list Event) :
  trace (snd (m s)) = trace s ++ evs -> emitted m s = evs.
Proof. unfold emitted. intros ->. by rewrite drop_app_length. Qed.

Lemma started_app tr1 tr2 : started (tr1 ++ tr2) = started tr1 ++ started tr2.
Proof. apply omap_app. Qed.

Lemma slept_app tr1 tr2 : slept (tr1 ++ tr2) = slept tr1 ++ slept tr2.
Proof. apply omap_app. Qed.

Lemma statted_app tr1 tr2 : statted (tr1 ++ tr2) = statted tr1 ++ statted tr2.
Proof. apply omap_app. Qed.

(** One retry: a process, then a sleep. *)
Lemma started_rounds c d n :
  started (concat (replicate n [EvExec c; EvSleep d])) = replicate n c.
Proof. induction n as [|n IH]; [done|]. cbn. by rewrite <- IH. Qed.

Lemma slept_rounds c d n :
  slept (concat (replicate n [EvExec c; EvSleep d])) = replicate n d.
Proof. induction n as [|n IH]; [done|]. cbn. by rewrite <- IH. Qed.

Lemma started_attempts c n :
  started (EvExec c :: concat (replicate n (retryRound c))) = replicate (S n) c.
Proof.
  change (started ([EvExec c] ++ concat (replicate n (retryRound c))) = replicate (S n) c).
  rewrite started_app. unfold retryRound. by rewrite started_rounds.
Qed.

Lemma slept_attempts c n :
  slept (EvExec c :: concat (replicate n (retryRound c))) = replicate n (5 * Second)%Z.
Proof.
  change (slept ([EvExec c] ++ concat (replicate n (retryRound c))) =
          replicate n (5 * Second)%Z).
  rewrite slept_app. unfold retryRound. by rewrite slept_rounds.
Qed.

(** ** The command executor and the retrying invoker *)

Section Invoker.

Variable W : World.
Variable w : Wrapper.

(** [execCmd] starts one process, whatever its arguments, and its result
    is a function of what that process does. *)
Lemma execCmd_run env dir command cmdArgs s :
  execCmd W w env dir command cmdArgs s =
  (attempt W w dir command cmdArgs (nExec s),
   mkSys (trace s ++ [EvExec (mkCmd command cmdArgs dir [])])
         (nStat s) (nNow s) (S (nExec s))).
Proof.
  unfold attempt, execCmd, bind, cmd_run, ret. cbn [nExec].
  destruct (startErr _); [done|].
  by destruct (bool_decide _ || bool_decide _).
Qed.

Lemma appendOpts_flags slsCmd opts : appendOpts slsCmd opts = slsCmd ++ optFlags opts.
Proof.
  unfold appendOpts, optFlags. generalize (map_to_list opts) as l.
  intros l. revert slsCmd. induction l as [|kv l IH]; intros slsCmd; cbn.
  - by rewrite app_nil_r.
  - rewrite IH. by rewrite <- !app_assoc.
Qed.

Lemma slsArgs_flags slsCmd :
  slsArgs w slsCmd = slsCmd ++ ["--suffix"; suffix w] ++ optFlags (Opts w).
Proof. unfold slsArgs. rewrite appendOpts_flags. by rewrite <- !app_assoc. Qed.

Variable funcDir : string.
Variable args : list string.

Let c : Cmd := mkCmd "sls" args funcDir [].
Let result (k : nat) : string * option error := attempt W w funcDir "sls" args k.
Let round : list Event := [EvExec c; EvSleep (5 * Second)].

(** The loop makes [m] further attempts when the result it is entered
    with and the first [m - 1] of them are errors and the [m]-th is not,
    or is the last that [retries] allows. *)
Lemma retryLoop_run m : forall retries r s,
  m <= retries ->
  (0 < m -> snd r <> None) ->
  (forall k, S k < m -> snd (result (nExec s + k)) <> None) ->
  (snd (match m with 0 => r | S m' => result (nExec s + m') end) = None \/ m = retries) ->
  retryLoop W w funcDir args retries r s =
  (match m with 0 => r | S m' => result (nExec s + m') end,
   mkSys (trace s ++ concat (replicate m round)) (nStat s) (nNow s) (nExec s + m)).
Proof.
  induction m as [|m IH]; intros retries r s Hle Hr Hfail Hlast.
  - cbn [replicate concat]. rewrite app_nil_r, Nat.add_0_r.
    destruct s, r as [resp [e|]]; destruct retries; cbn; try done.
    destruct Hlast as [?|?]; done.
  - destruct retries as [|retries]; [lia|].
    destruct r as [resp [e|]]; [|by destruct Hr; [lia|]].
    cbn [retryLoop snd]. unfold bind at 1. rewrite execCmd_run.
    unfold bind at 1, time_Sleep at 1. cbn [trace nStat nNow nExec].
    rewrite (IH retries); cbn [trace nStat nNow nExec].
    + f_equal.
      * destruct m as [|m]; [by rewrite Nat.add_0_r|].
        f_equal. lia.
      * f_equal; [|lia]. cbn [replicate concat]. by rewrite <- !app_assoc.
    + lia.
    + intros Hm. specialize (Hfail 0). rewrite Nat.add_0_r in Hfail. apply Hfail. lia.
    + intros k Hk. replace (S (nExec s) + k) with (nExec s + S k) by lia.
      apply Hfail. lia.
    + destruct Hlast as [Hlast|Hlast]; [left|right; lia].
      destruct m as [|m]; cbn [snd].
      * by rewrite Nat.add_0_r in Hlast.
      * by replace (S (nExec s) + m) with (nExec s + S m) by lia.
Qed.

End Invoker.

(** ** The build steps *)

Section BuildSteps.

Variable W : World.
Variable w : Wrapper.

Lemma platformPath_run platform s :
  let p := path_Join W (yamlDirPath w) platform in
  platformPath W w platform s =
  (match Stat W (nStat s) p with
   | Some e => if IsNotExist e then ("", false, None) else ("", false, Some e)
   | None => (p, true, None)
   end, afterStat s p).
Proof.
  unfold platformPath, bind, os_Stat, ret, afterStat. cbn.
  destruct (Stat W (nStat s) _) as [e|]; [|done]. by destruct (IsNotExist e).
Qed.

Lemma execCmd_cmd env (c : Cmd) s :
  cmd_Env c = [] ->
  execCmd W w env (cmd_Dir c) (cmd_command c) (cmd_Args c) s =
  (attemptCmd W w c (nExec s), afterExec s c).
Proof.
  destruct c as [command cmdArgs dir e]. cbn [cmd_Env cmd_Dir cmd_command cmd_Args].
  intros ->. unfold attemptCmd, afterExec. cbn [cmd_Dir cmd_command cmd_Args].
  apply execCmd_run.
Qed.

Lemma buildJava_run version s :
  let p := path_Join W (yamlDirPath w) version in
  buildJava W w version s =
  match Stat W (nStat s) p with
  | Some e => (if IsNotExist e then None else Some e, afterStat s p)
  | None =>
      (match snd (attemptCmd W w (mvnPackage p) (nExec s)) with
       | Some e => if HasPrefix (Error e) "WARNING" then None else Some e
       | None => None
       end, afterExec (afterStat s p) (mvnPackage p))
  end.
Proof.
  intros p. unfold buildJava, bind at 1. rewrite platformPath_run. fold p.
  destruct (Stat W (nStat s) p) as [e|].
  - by destruct (IsNotExist e).
  - cbn [negb]. unfold bind.
    rewrite (execCmd_cmd [] (mvnPackage p)) by done. cbn [nExec afterStat].
    destruct (attemptCmd _ _ _ _) as [out [e|]]; cbn [snd]; [|done].
    by destruct (HasPrefix _ _).
Qed.

Lemma buildCsharp_run s :
  let p := path_Join W (yamlDirPath w) "csharp" in
  buildCsharp W w s =
  match Stat W (nStat s) p with
  | Some e => (if IsNotExist e then None else Some e, afterStat s p)
  | None =>
      match snd (attemptCmd W w (dotnetRestore p) (nExec s)) with
      | Some e => (Some e, afterExec (afterStat s p) (dotnetRestore p))
      | None =>
          (snd (attemptCmd W w (dotnetPackage p) (S (nExec s))),
           afterExec (afterExec (afterStat s p) (dotnetRestore p)) (dotnetPackage p))
      end
  end.
Proof.
  intros p. unfold buildCsharp, bind at 1. rewrite platformPath_run. fold p.
  destruct (Stat W (nStat s) p) as [e|].
  - by destruct (IsNotExist e).
  - cbn [negb]. unfold bind at 1.
    rewrite (execCmd_cmd [] (dotnetRestore p)) by done. cbn [nExec afterStat].
    destruct (attemptCmd _ _ (dotnetRestore p) _) as [out [e|]]; cbn [snd]; [done|].
    unfold bind. rewrite (execCmd_cmd [] (dotnetPackage p)) by done.
    cbn [nExec afterExec]. by destruct (attemptCmd _ _ _ _).
Qed.

Lemma buildGolang_run s :
  let p := path_Join W (yamlDirPath w) "golang" in
  buildGolang W w s =
  match Stat W (nStat s) p with
  | Some e => (if IsNotExist e then None else Some e, afterStat s p)
  | None =>
      (snd (attemptCmd W w (goBuild p) (nExec s)), afterExec (afterStat s p) (goBuild p))
  end.
Proof.
  intros p. unfold buildGolang, bind at 1. rewrite platformPath_run. fold p.
  destruct (Stat W (nStat s) p) as [e|].
  - by destruct (IsNotExist e).
  - cbn [negb]. unfold bind.
    rewrite (execCmd_cmd ["GOOS=linux"; "GO111MODULE=on"] (goBuild p)) by done.
    cbn [nExec afterStat]. by destruct (attemptCmd _ _ _ _).
Qed.

End BuildSteps.

(** ** The retrying invoker as a whole *)

Section Retrying.

Variable W : World.
Variable w : Wrapper.

Lemma execSlsCmd_run funcDir slsCmd s N :
  let c := slsCmdOf w funcDir slsCmd in
  1 <= N <= S slsRetries ->
  (forall k, S k < N -> snd (attemptCmd W w c (nExec s + k)) <> None) ->
  (snd (attemptCmd W w c (nExec s + (N - 1))) = None \/ N = S slsRetries) ->
  execSlsCmd W w funcDir slsCmd s =
  (attemptCmd W w c (nExec s + (N - 1)),
   mkSys (trace s ++ EvExec c :: concat (replicate (N - 1) (retryRound c)))
         (nStat s) (nNow s) (nExec s + N)).
Proof.
  intros c HN Hfail Hlast. unfold execSlsCmd.
  change (appendOpts _ _) with (slsArgs w slsCmd).
  unfold bind. rewrite execCmd_run.
  rewrite (retryLoop_run W w funcDir (slsArgs w slsCmd) (N - 1));
    cbn [trace nStat nNow nExec].
  - f_equal.
    + unfold attemptCmd. cbn [c slsCmdOf cmd_Dir cmd_command cmd_Args].
      destruct (N - 1) as [|m]; [by rewrite Nat.add_0_r|]. f_equal. lia.
    + f_equal; [|lia]. by rewrite <- app_assoc.
  - unfold slsRetries in *. lia.
  - intros Hm. specialize (Hfail 0). rewrite Nat.add_0_r in Hfail. apply Hfail. lia.
  - intros k Hk. replace (S (nExec s) + k) with (nExec s + S k) by lia.
    apply (Hfail (S k)). lia.
  - destruct Hlast as [Hlast|Hlast]; [left|right; unfold slsRetries in *; lia].
    unfold attemptCmd in Hlast. cbn [c slsCmdOf cmd_Dir cmd_command cmd_Args] in Hlast.
    destruct (N - 1) as [|m]; [by rewrite Nat.add_0_r in Hlast|].
    by replace (S (nExec s) + m) with (nExec s + S m) by lia.
Qed.

(** Some number of attempts between one and eleven always fits. *)
Lemma attempts_exist (f : nat -> string * option error) R :
  exists N, 1 <= N <= S R /\
    (forall k, S k < N -> snd (f k) <> None) /\
    (snd (f (N - 1)) = None \/ N = S R).
Proof.
  induction R as [|R (N & HN & Hfail & Hlast)].
  - exists 1. split; [lia|]. split; [intros; lia|by right].
  - destruct (snd (f (N - 1))) as [e|] eqn:E.
    + destruct Hlast as [?| ->]; [done|]. exists (S (S R)). split; [lia|].
      split; [|by right]. intros k Hk.
      destruct (decide (k = R)) as [->|]; [|apply Hfail; lia].
      replace (S R - 1) with R in E by lia. by rewrite E.
    + exists N. split; [lia|]. split; [done|by left].
Qed.

Lemma execSlsCmd_shape funcDir slsCmd s :
  let c := slsCmdOf w funcDir slsCmd in
  exists N, 1 <= N <= S slsRetries /\
    execSlsCmd W w funcDir slsCmd s =
    (attemptCmd W w c (nExec s + (N - 1)),
     mkSys (trace s ++ EvExec c :: concat (replicate (N - 1) (retryRound c)))
           (nStat s) (nNow s) (nExec s + N)).
Proof.
  intros c.
  destruct (attempts_exist (fun k => attemptCmd W w c (nExec s + k)) slsRetries)
    as (N & HN & Hfail & Hlast).
  exists N. split; [done|]. by apply execSlsCmd_run.
Qed.

End Retrying.

(** ** Deploy *)

Section Deploy.

Variable W : World.

(** The loop over the function map rewrites the name under every key. *)
Lemma renameFunctions_lookup sfx (fs : gmap string FunctionMeta) k :
  renameFunctions sfx fs !! k =
  (fun v => with_Name v (Replace (Name v) "${opt:suffix}" sfx)) <$> fs !! k.
Proof.
  unfold renameFunctions.
  pose proof (NoDup_fst_map_to_list fs) as Hnd.
  assert (Hin : forall v, (k, v) ∈ map_to_list fs <-> fs !! k = Some v)
    by (intros v; apply elem_of_map_to_list).
  revert Hnd Hin. generalize (fs !! k) as o. generalize (map_to_list fs) as l.
  intros l. induction l as [|[k' v'] l IH] using rev_ind; intros o Hnd Hin.
  - destruct o as [v|]; [|by cbn [foldl]; rewrite lookup_empty].
    exfalso. specialize (Hin v). apply proj2 in Hin. specialize (Hin eq_refl).
    by apply elem_of_nil in Hin.
  - rewrite foldl_app. cbn [foldl fst snd].
    rewrite fmap_app in Hnd. apply NoDup_app in Hnd as (Hnd & Hfresh & _).
    destruct (decide (k' = k)) as [->|Hne].
    + rewrite lookup_insert_eq.
      assert (o = Some v') as ->; [|done].
      destruct o as [v|].
      * f_equal. specialize (Hin v). apply proj2 in Hin. specialize (Hin eq_refl).
        apply elem_of_app in Hin as [Hin|Hin].
        -- exfalso. apply (Hfresh k); [|by apply list_elem_of_singleton].
           apply list_elem_of_fmap. by exists (k, v).
        -- apply list_elem_of_singleton in Hin. congruence.
      * exfalso. enough (@None FunctionMeta = Some v') by done.
        apply Hin, elem_of_app. right. by apply list_elem_of_singleton.
    + rewrite lookup_insert_ne by done. apply IH; [done|].
      intros v. rewrite <- Hin. rewrite elem_of_app, list_elem_of_singleton.
      split; [auto|]. intros [?|[=]]; done.
Qed.

Lemma DeployStack_unfold w s :
  let w' := renamed w (FormatInt (UnixNano W (nNow s))) in
  let r1 := buildJava W w' "java8" (afterNow s) in
  let r2 := buildJava W w' "java11" (snd r1) in
  let r3 := buildCsharp W w' (snd r2) in
  let r4 := buildGolang W w' (snd r3) in
  let r5 := execSlsCmd W w' (yamlDirPath w') ["deploy"; "--no-aws-s3-accelerate"] (snd r4) in
  DeployStack W w s =
  match fst r1 with
  | Some e => (w', Some e, snd r1)
  | None =>
  match fst r2 with
  | Some e => (w', Some e, snd r2)
  | None =>
  match fst r3 with
  | Some e => (w', Some e, snd r3)
  | None =>
  match fst r4 with
  | Some e => (w', Some e, snd r4)
  | None => (w', snd (fst r5), snd r5)
  end end end end.
Proof.
  intros w' r1 r2 r3 r4 r5. unfold DeployStack, bind at 1.
  unfold time_Now_UnixNano at 1. fold (afterNow s).
  change (with_stack _ _) with w'.
  unfold bind at 1. fold r1. destruct r1 as [[e1|] s1]; [done|]. cbn [fst snd] in *.
  unfold bind at 1. fold r2. destruct r2 as [[e2|] s2]; [done|]. cbn [fst snd] in *.
  unfold bind at 1. fold r3. destruct r3 as [[e3|] s3]; [done|]. cbn [fst snd] in *.
  unfold bind at 1. fold r4. destruct r4 as [[e4|] s4]; [done|]. cbn [fst snd] in *.
  unfold bind at 1. fold r5. by destruct r5 as [[out e5] s5].
Qed.

End Deploy.

(** * The claims *)

(** What [execCmd] returns, in terms of what it finds after [cmd.Wait]:
    the start error at once; else the fixed capture error when one of the
    error variables is set by then; else the trimmed buffer as it is then,
    with the error of [cmd.Wait]. *)
Lemma execCmd_observed (W : World) (w : Wrapper) (env : list string)
    (dir command : string) (cmdArgs : list string) (s : Sys) :
  let r := Run W (nExec s) (mkCmd command cmdArgs dir []) in
  let res := fst (execCmd W w env dir command cmdArgs s) in
  (forall e, startErr r = Some e -> res = ("", Some e)) /\
  (startErr r = None -> errStdout r <> None \/ errStderr r <> None ->
   res = ("", Some (errors_New "failed to capture stdout or stderr"))) /\
  (startErr r = None -> errStdout r = None -> errStderr r = None ->
   res = (TrimSpace W (stdoutBuf r), waitErr r)).
Proof.
  intros r res. subst res. unfold execCmd, bind, cmd_run, ret. fold r.
  split; [|split].
  - by intros e ->.
  - intros -> Hcopy. cbn [fst].
    destruct (bool_decide (errStdout r <> None) || bool_decide (errStderr r <> None)) eqn:E;
      [done|].
    apply orb_false_elim in E as [E1%bool_decide_eq_false E2%bool_decide_eq_false].
    tauto.
  - intros -> H1 H2. rewrite H1, H2. by repeat case_bool_decide.
Qed.

(** When both goroutines have ended before the test, [execCmd] does what
    is expected of it: a failed copy gives the capture error, whatever
    [cmd.Wait] returned, and otherwise all the copied output is returned,
    trimmed, with the error of [cmd.Wait]. *)
Lemma execCmd_copies_ended (W : World) (w : Wrapper) (env : list string)
    (dir command : string) (cmdArgs : list string) (s : Sys) :
  let r := Run W (nExec s) (mkCmd command cmdArgs dir []) in
  let res := fst (execCmd W w env dir command cmdArgs s) in
  startErr r = None ->
  endedAtTest (stdoutCopy r) = true -> endedAtTest (stderrCopy r) = true ->
  (copyErr (stdoutCopy r) <> None \/ copyErr (stderrCopy r) <> None ->
   res = ("", Some (errors_New "failed to capture stdout or stderr"))) /\
  (copyErr (stdoutCopy r) = None -> copyErr (stderrCopy r) = None ->
   res = (TrimSpace W (copied (stdoutCopy r)), waitErr r)).
Proof.
  intros r res Hstart Hout Herr.
  destruct (execCmd_observed W w env dir command cmdArgs s) as (_ & Hfail & Hok).
  fold r res in Hfail, Hok.
  unfold errStdout, errStderr, stdoutBuf, errAtTest, bufAtRead in Hfail, Hok.
  rewrite Hout, Herr in Hfail, Hok. split; auto.
Qed.

(** A copy that fails after the test is not reported, whatever its error:
    when neither goroutine has ended by then, the bytes that are in the
    buffer are returned, trimmed, with the error of [cmd.Wait]. *)
Lemma execCmd_copies_running (W : World) (w : Wrapper) (env : list string)
    (dir command : string) (cmdArgs : list string) (s : Sys) :
  let r := Run W (nExec s) (mkCmd command cmdArgs dir []) in
  startErr r = None ->
  endedAtTest (stdoutCopy r) = false -> endedAtTest (stderrCopy r) = false ->
  fst (execCmd W w env dir command cmdArgs s) =
    (TrimSpace W (firstBytes (copiedAtRead (stdoutCopy r)) (copied (stdoutCopy r))),
     waitErr r).
Proof.
  intros r Hstart Hout Herr.
  destruct (execCmd_observed W w env dir command cmdArgs s) as (_ & _ & Hok).
  fold r in Hok. rewrite Hok; [|done|..].
  - unfold stdoutBuf, bufAtRead. by rewrite Hout.
  - unfold errStdout, errAtTest. by rewrite Hout.
  - unfold errStderr, errAtTest. by rewrite Herr.
Qed.

(** C9, on the code.  The copy of the standard output of this process
    fails, but only after [execCmd] has tested [errStdout]: [execCmd]
    returns no capture error.  It returns nil, the error of [cmd.Wait], with
    the eleven bytes that had reached the buffer in place of the output.  A
    start error, for comparison, is returned at once with empty output. *)
Theorem execCmd_misses_late_copy_failure :
  let r := Run worldLateCopy 0 (mkCmd "sls" ["remove"] "app" []) in
  startErr r = None /\
  copyErr (stdoutCopy r) = Some (errors_New "read |0: file already closed") /\
  endedAtTest (stdoutCopy r) = false /\
  execCmd worldLateCopy demoWrapper [] "app" "sls" ["remove"] initSys =
    ("Serverless:", None, mkSys [EvExec (mkCmd "sls" ["remove"] "app" [])] 0 0 1).
Proof. repeat split; reflexivity. Qed.

Example execCmd_done :
  fst (execCmd worldThirdTimeLucky demoWrapper [] "app" "sls" ["remove"]
         (mkSys [] 0 0 2)) = ("done", None).
Proof. reflexivity. Qed.

(** C1, as the code has it.  [execSlsCmd] makes a first attempt and then
    up to [slsRetries = 10] retries, eleven attempts in all.  When the first
    [N - 1] attempts fail and attempt [N] succeeds ([N <= 11]), its result is
    returned after exactly [N] attempts; when all eleven fail, the error of
    the eleventh is returned.  [N] attempts come with [N - 1] delays, each
    of five seconds. *)
Theorem execSlsCmd_retries (W : World) (w : Wrapper) (funcDir : string)
    (slsCmd : list string) (s : Sys) (N : nat) :
  let c := slsCmdOf w funcDir slsCmd in
  let result k := fst (execCmd W w [] funcDir "sls" (slsArgs w slsCmd)
                         (mkSys [] 0 0 (nExec s + k))) in
  1 <= N <= 11 ->
  (forall k, k < N - 1 -> snd (result k) <> None) ->
  (snd (result (N - 1)) = None \/ N = 11) ->
  fst (execSlsCmd W w funcDir slsCmd s) = result (N - 1) /\
  started (emitted (execSlsCmd W w funcDir slsCmd) s) = replicate N c /\
  slept (emitted (execSlsCmd W w funcDir slsCmd) s) = replicate (N - 1) (5 * Second)%Z.
Proof.
  intros c result HN Hfail Hlast.
  pose proof (execSlsCmd_run W w funcDir slsCmd s N) as Hrun.
  cbn zeta in Hrun. unfold emitted. rewrite Hrun; clear Hrun.
  - split; [done|]. cbn [snd trace]. rewrite drop_app_length.
    rewrite started_attempts, slept_attempts.
    split; [|done]. f_equal. lia.
  - done.
  - intros k Hk. apply (Hfail k). lia.
  - done.
Qed.

Lemma execSlsCmd_retries_witness :
  fst (execSlsCmd worldThirdTimeLucky demoWrapper "app" ["remove"] initSys) = ("done", None) /\
  started (emitted (execSlsCmd worldThirdTimeLucky demoWrapper "app" ["remove"]) initSys) =
    replicate 3 (mkCmd "sls" ["remove"; "--suffix"; ""] "app" []) /\
  slept (emitted (execSlsCmd worldThirdTimeLucky demoWrapper "app" ["remove"]) initSys) =
    [5000000000; 5000000000]%Z.
Proof.
  apply (execSlsCmd_retries worldThirdTimeLucky demoWrapper "app" ["remove"] initSys 3).
  - lia.
  - intros [|[|k]] Hk; [done|done|lia].
  - by left.
Defined.

(** C1, as the claim has it, fails: a tool that fails on every attempt is
    run eleven times, not ten, before its last error is returned. *)
Lemma execSlsCmd_eleven_attempts :
  let run := execSlsCmd worldAlwaysFailing demoWrapper "app" ["remove"] in
  (forall k, snd (attempt worldAlwaysFailing demoWrapper "app" "sls"
                    (slsArgs demoWrapper ["remove"]) k) <> None) /\
  snd (fst (run initSys)) = Some (errors_New "exit status 1") /\
  length (started (emitted run initSys)) = 11 /\
  length (started (emitted run initSys)) <> 10.
Proof. repeat split; done. Qed.

(** C6.  A build step whose directory [os.Stat] reports as not existing
    returns nil and starts no process: the [os.Stat] is all it does.  This
    holds for [buildJava] at any version, for [buildCsharp] and for
    [buildGolang]. *)
Theorem absent_runtime_is_noop (W : World) (w : Wrapper) (s : Sys) (e : error) :
  let dir platform := path_Join W (yamlDirPath w) platform in
  let absent platform := Stat W (nStat s) (dir platform) = Some e in
  IsNotExist e = true ->
  (forall version, absent version ->
     fst (buildJava W w version s) = None /\
     emitted (buildJava W w version) s = [EvStat (dir version)]) /\
  (absent "csharp" ->
     fst (buildCsharp W w s) = None /\
     emitted (buildCsharp W w) s = [EvStat (dir "csharp")]) /\
  (absent "golang" ->
     fst (buildGolang W w s) = None /\
     emitted (buildGolang W w) s = [EvStat (dir "golang")]).
Proof.
  intros dir absent He. unfold emitted, absent, dir.
  split; [intros version Habs; rewrite buildJava_run, Habs, He|
  split; [intros Habs; rewrite buildCsharp_run, Habs, He|
          intros Habs; rewrite buildGolang_run, Habs, He]].
  all: cbn [fst snd afterStat trace]; by rewrite drop_app_length.
Qed.

Lemma absent_runtime_is_noop_witness :
  fst (buildJava worldAlwaysFailing demoWrapper "java8" initSys) = None /\
  emitted (buildJava worldAlwaysFailing demoWrapper "java8") initSys = [EvStat "app/java8"].
Proof.
  apply (absent_runtime_is_noop worldAlwaysFailing demoWrapper initSys
           (mkError "stat: no such file or directory" true)); reflexivity.
Defined.

(** C8.  When the directory of a Java build step exists and [execCmd]
    returns an error for [mvn package], [buildJava] returns nil if the text
    of that error starts with "WARNING", and returns that same error
    otherwise. *)
Theorem buildJava_advisory (W : World) (w : Wrapper) (version : string) (s : Sys)
    (e : error) :
  let javaPath := path_Join W (yamlDirPath w) version in
  Stat W (nStat s) javaPath = None ->
  snd (fst (execCmd W w [] javaPath "mvn" ["package"] (afterStat s javaPath))) = Some e ->
  fst (buildJava W w version s) =
    if HasPrefix (Error e) "WARNING" then None else Some e.
Proof.
  intros javaPath Hstat Herr. rewrite buildJava_run. fold javaPath. rewrite Hstat.
  rewrite execCmd_run in Herr. cbn [fst nExec afterStat] in Herr.
  unfold attemptCmd. cbn [mvnPackage cmd_Dir cmd_command cmd_Args fst].
  by rewrite Herr.
Qed.

Lemma buildJava_advisory_witness :
  fst (buildJava (worldJava "WARNING: An illegal reflective access operation has occurred")
         demoWrapper "java8" initSys) = None.
Proof.
  apply (buildJava_advisory
           (worldJava "WARNING: An illegal reflective access operation has occurred")
           demoWrapper "java8" initSys
           (errors_New "WARNING: An illegal reflective access operation has occurred"));
    reflexivity.
Defined.

Example buildJava_failure :
  fst (buildJava (worldJava "exit status 1") demoWrapper "java8" initSys) =
    Some (errors_New "exit status 1").
Proof. reflexivity. Qed.

(** Every process of the package runs with a nil [Env]: [execCmd] drops
    its [env] argument. *)
Lemma execCmd_Env_nil (W : World) (w : Wrapper) env dir command cmdArgs s :
  Forall (fun c => cmd_Env c = []) (started (emitted (execCmd W w env dir command cmdArgs) s)).
Proof.
  unfold emitted. rewrite execCmd_run. cbn [snd trace]. rewrite drop_app_length.
  by repeat constructor.
Qed.

Lemma buildGolang_started (W : World) (w : Wrapper) (s : Sys) :
  let golangPath := path_Join W (yamlDirPath w) "golang" in
  Stat W (nStat s) golangPath = None ->
  started (emitted (buildGolang W w) s) = [goBuild golangPath].
Proof.
  intros golangPath Hstat. unfold emitted. rewrite buildGolang_run.
  fold golangPath. rewrite Hstat. cbn [snd afterExec afterStat trace].
  by rewrite <- app_assoc, drop_app_length.
Qed.

(** C2, on the code.  With [app/golang] present, [buildGolang] starts
    [go build] in that directory, and the [exec.Cmd] it starts has a nil
    [Env]: neither [GOOS=linux] nor [GO111MODULE=on] is set for the child. *)
Theorem buildGolang_env_not_set :
  let cmds := started (emitted (buildGolang worldGolang demoWrapper) initSys) in
  cmds = [mkCmd "go" ["build"; "-ldflags"; "-s"; "-ldflags"; "-w"; "-o"; "bin/hello"; "main.go"]
            "app/golang" []] /\
  Forall (fun c => ("GOOS=linux" ∉ cmd_Env c) /\ ("GO111MODULE=on" ∉ cmd_Env c)) cmds.
Proof.
  split; [reflexivity|]. repeat constructor; cbn; by intros ?%elem_of_nil.
Qed.

(** C5.  [ParseConfig] returns an error exactly when the descriptor cannot
    be read, or its content cannot be deserialized, or the provider it
    declares differs from the expected one.  The first two errors are those
    of [ioutil.ReadFile] and [yaml.Unmarshal]; the third has the text
    "expected provider P, found provider: F", which contains both names.
    Without an error the result is the deserialized stack, unchanged. *)
Theorem ParseConfig_errors (W : World) (provider yamlDirPath : string) :
  let file := ReadFile W (filepath_Join W yamlDirPath YamlName) in
  let parsed := Unmarshal W (fst file) zeroServiceStack in
  let found := provider_Name (stack_Provider (fst parsed)) in
  let unreadable := snd file <> None in
  let malformed := snd file = None /\ snd parsed <> None in
  let mismatch := snd file = None /\ snd parsed = None /\ provider <> found in
  let out := ParseConfig W provider yamlDirPath in
  let text := "expected provider " +:+ provider +:+ ", found provider: " +:+ found in
  (snd out <> None <-> unreadable \/ malformed \/ mismatch) /\
  (unreadable -> out = (None, snd file)) /\
  (malformed -> out = (None, snd parsed)) /\
  (mismatch ->
     out = (None, Some (errors_New text)) /\
     Contains text provider = true /\ Contains text found = true) /\
  (snd file = None -> snd parsed = None -> provider = found ->
     out = (Some (fst parsed), None)).
Proof.
  intros file parsed found unreadable malformed mismatch out text.
  assert (Hout : out =
    match snd file with
    | Some e => (None, Some e)
    | None =>
        match snd parsed with
        | Some e => (None, Some e)
        | None =>
            if bool_decide (provider = found) then (Some (fst parsed), None)
            else (None, Some (errors_New text))
        end
    end).
  { subst out text found parsed file. unfold ParseConfig.
    destruct (ReadFile W _) as [yamlData [e|]]; [done|]. cbn [fst snd].
    destruct (Unmarshal W yamlData _) as [slsData [e|]]; [done|]. cbn [fst snd].
    destruct (String.eqb_spec provider (provider_Name (stack_Provider slsData))).
    - by rewrite bool_decide_eq_true_2.
    - by rewrite bool_decide_eq_false_2. }
  rewrite Hout. subst unreadable malformed mismatch. clear Hout out.
  destruct (snd file) as [e1|]; [|destruct (snd parsed) as [e2|]; [|case_bool_decide]];
    cbn [snd].
  - split; [split; [by left|done]|].
    split; [done|]. split; [by intros [? _]|]. split; [by intros [? _]|done].
  - split; [split; [by right; left|done]|].
    split; [done|]. split; [done|]. split; [by intros (_ & ? & _)|done].
  - split; [split; [done|]|].
    { intros [?|[[_ ?]|(_ & _ & ?)]]; done. }
    split; [done|]. split; [by intros [_ ?]|]. split; [by intros (_ & _ & ?)|done].
  - split; [split; [by right; right|done]|].
    split; [done|]. split; [by intros [_ ?]|]. split; [|done].
    intros _. split; [done|]. split.
    + apply Contains_middle.
    + apply Contains_app_r, Contains_app_r, Contains_end.
Qed.

Example ParseConfig_mismatch :
  ParseConfig worldGcp "aws" "app" =
    (None, Some (errors_New "expected provider aws, found provider: gcp")).
Proof. reflexivity. Qed.

Example ParseConfig_match :
  ParseConfig worldGcp "gcp" "app" = (Some gcpStack, None).
Proof. reflexivity. Qed.

(** ** What the operations add to the trace *)

Section Events.

Variable W : World.
Variable w : Wrapper.

Lemma started_stepEvents p cmds : started (stepEvents p cmds) = cmds.
Proof.
  unfold stepEvents, started. cbn [omap]. induction cmds as [|c cmds IH]; [done|].
  cbn. by f_equal.
Qed.

Lemma statted_stepEvents p cmds : statted (stepEvents p cmds) = [p].
Proof.
  unfold stepEvents, statted. cbn [omap]. f_equal.
  induction cmds as [|c cmds IH]; [done|]. by cbn.
Qed.

Lemma statted_attempts c n : statted (EvExec c :: concat (replicate n (retryRound c))) = [].
Proof. cbn. induction n as [|n IH]; [done|]. by cbn. Qed.

(** A build step stats its directory and then starts build tools only. *)
Lemma buildJava_events version s :
  exists cmds,
    trace (snd (buildJava W w version s)) =
      trace s ++ stepEvents (path_Join W (yamlDirPath w) version) cmds /\
    Forall (fun c => cmd_command c = "mvn") cmds.
Proof.
  rewrite buildJava_run. destruct (Stat W _ _) as [e|].
  - by exists [].
  - eexists [_]. cbn [snd afterExec afterStat trace]. rewrite <- app_assoc.
    split; [done|]. by repeat constructor.
Qed.

Lemma buildCsharp_events s :
  exists cmds,
    trace (snd (buildCsharp W w s)) =
      trace s ++ stepEvents (path_Join W (yamlDirPath w) "csharp") cmds /\
    Forall (fun c => cmd_command c = "dotnet") cmds.
Proof.
  rewrite buildCsharp_run. destruct (Stat W _ _) as [e|].
  - by exists [].
  - destruct (snd (attemptCmd _ _ _ _)) as [e|].
    + eexists [_]. cbn [snd afterExec afterStat trace]. rewrite <- app_assoc.
      split; [done|]. by repeat constructor.
    + eexists [_; _]. cbn [snd afterExec afterStat trace]. rewrite <- !app_assoc.
      split; [done|]. by repeat constructor.
Qed.

Lemma buildGolang_events s :
  exists cmds,
    trace (snd (buildGolang W w s)) =
      trace s ++ stepEvents (path_Join W (yamlDirPath w) "golang") cmds /\
    Forall (fun c => cmd_command c = "go") cmds.
Proof.
  rewrite buildGolang_run. destruct (Stat W _ _) as [e|].
  - by exists [].
  - eexists [_]. cbn [snd afterExec afterStat trace]. rewrite <- app_assoc.
    split; [done|]. by repeat constructor.
Qed.

Lemma execSlsCmd_events funcDir slsCmd s :
  exists n,
    n <= slsRetries /\
    trace (snd (execSlsCmd W w funcDir slsCmd s)) =
      trace s ++ EvExec (slsCmdOf w funcDir slsCmd)
                 :: concat (replicate n (retryRound (slsCmdOf w funcDir slsCmd))).
Proof.
  destruct (execSlsCmd_shape W w funcDir slsCmd s) as (N & HN & ->).
  exists (N - 1). split; [lia|done].
Qed.

End Events.

Section DeployFacts.

Variable W : World.
Variable w : Wrapper.
Variable s : Sys.

Let w' : Wrapper := renamed w (FormatInt (UnixNano W (nNow s))).
Let dir (platform : string) : string := path_Join W (yamlDirPath w) platform.
Let r1 := buildJava W w' "java8" (afterNow s).
Let r2 := buildJava W w' "java11" (snd r1).
Let r3 := buildCsharp W w' (snd r2).
Let r4 := buildGolang W w' (snd r3).
Let r5 := execSlsCmd W w' (yamlDirPath w') ["deploy"; "--no-aws-s3-accelerate"] (snd r4).
Let deploy : Cmd := slsCmdOf w' (yamlDirPath w') ["deploy"; "--no-aws-s3-accelerate"].

Lemma DeployStack_wrapper : fst (fst (DeployStack W w s)) = w'.
Proof.
  rewrite DeployStack_unfold. fold w' r1 r2 r3 r4 r5.
  by destruct (fst r1), (fst r2), (fst r3), (fst r4).
Qed.

(** The events of the four build steps and of the deploy invocation, one
    after the other. *)
Lemma DeployStack_steps :
  exists c1 c2 c3 c4 n,
    n <= slsRetries /\
    Forall (fun c => cmd_command c <> "sls") (c1 ++ c2 ++ c3 ++ c4) /\
    let e1 := EvNow :: stepEvents (dir "java8") c1 in
    let e2 := e1 ++ stepEvents (dir "java11") c2 in
    let e3 := e2 ++ stepEvents (dir "csharp") c3 in
    let e4 := e3 ++ stepEvents (dir "golang") c4 in
    let e5 := e4 ++ EvExec deploy :: concat (replicate n (retryRound deploy)) in
    trace (snd r1) = trace s ++ e1 /\
    trace (snd r2) = trace s ++ e2 /\
    trace (snd r3) = trace s ++ e3 /\
    trace (snd r4) = trace s ++ e4 /\
    trace (snd r5) = trace s ++ e5.
Proof.
  destruct (buildJava_events W w' "java8" (afterNow s)) as (c1 & H1 & F1).
  destruct (buildJava_events W w' "java11" (snd r1)) as (c2 & H2 & F2).
  destruct (buildCsharp_events W w' (snd r2)) as (c3 & H3 & F3).
  destruct (buildGolang_events W w' (snd r3)) as (c4 & H4 & F4).
  destruct (execSlsCmd_events W w' (yamlDirPath w') ["deploy"; "--no-aws-s3-accelerate"]
              (snd r4)) as (n & Hn & H5).
  fold r1 in H1. fold r2 in H2. fold r3 in H3. fold r4 in H4. fold r5 deploy in H5.
  change (yamlDirPath w') with (yamlDirPath w) in H1, H2, H3, H4.
  fold (dir "java8") in H1. fold (dir "java11") in H2.
  fold (dir "csharp") in H3. fold (dir "golang") in H4.
  exists c1, c2, c3, c4, n. split; [done|]. split.
  { rewrite !Forall_app. repeat split;
      (eapply Forall_impl; [eassumption|]); by intros c ->. }
  cbn zeta. rewrite H5, H4, H3, H2, H1. cbn [afterNow trace].
  rewrite <- !app_assoc. done.
Qed.

End DeployFacts.

(** C7.  [DeployStack] runs [buildJava "java8"], [buildJava "java11"],
    [buildCsharp] and [buildGolang] in this order, each from the state the
    previous one left.  The first of them to return an error ends the call:
    that error is returned and the world is left as that step left it, so
    no later step has run.  Only when all four return nil does [execSlsCmd]
    run the deploy invocation, from the state after [buildGolang].  The
    directories are statted in the fixed order, no build step starts [sls],
    and an [sls] process in the trace of the call means that all four steps
    returned nil. *)
Theorem DeployStack_build_order (W : World) (w : Wrapper) (s : Sys) :
  let out := DeployStack W w s in
  let w' := fst (fst out) in
  let dir platform := path_Join W (yamlDirPath w) platform in
  let r1 := buildJava W w' "java8" (afterNow s) in
  let r2 := buildJava W w' "java11" (snd r1) in
  let r3 := buildCsharp W w' (snd r2) in
  let r4 := buildGolang W w' (snd r3) in
  let r5 := execSlsCmd W w' (yamlDirPath w') ["deploy"; "--no-aws-s3-accelerate"] (snd r4) in
  let sls c := cmd_command c = "sls" in
  (forall e, fst r1 = Some e -> out = (w', Some e, snd r1)) /\
  (fst r1 = None -> forall e, fst r2 = Some e -> out = (w', Some e, snd r2)) /\
  (fst r1 = None -> fst r2 = None ->
   forall e, fst r3 = Some e -> out = (w', Some e, snd r3)) /\
  (fst r1 = None -> fst r2 = None -> fst r3 = None ->
   forall e, fst r4 = Some e -> out = (w', Some e, snd r4)) /\
  (fst r1 = None -> fst r2 = None -> fst r3 = None -> fst r4 = None ->
   out = (w', snd (fst r5), snd r5)) /\
  statted (emitted (DeployStack W w) s)
    `prefix_of` [dir "java8"; dir "java11"; dir "csharp"; dir "golang"] /\
  Forall (fun c => ~ sls c) (started (drop (length (trace s)) (trace (snd r4)))) /\
  (Exists sls (started (emitted (DeployStack W w) s)) ->
   fst r1 = None /\ fst r2 = None /\ fst r3 = None /\ fst r4 = None).
Proof.
  cbn zeta. rewrite DeployStack_wrapper.
  set (w' := renamed w (FormatInt (UnixNano W (nNow s)))).
  set (r1 := buildJava W w' "java8" (afterNow s)).
  set (r2 := buildJava W w' "java11" (snd r1)).
  set (r3 := buildCsharp W w' (snd r2)).
  set (r4 := buildGolang W w' (snd r3)).
  set (r5 := execSlsCmd W w' (yamlDirPath w') ["deploy"; "--no-aws-s3-accelerate"] (snd r4)).
  destruct (DeployStack_steps W w s) as (c1 & c2 & c3 & c4 & n & _ & Hno & Hsteps).
  cbn zeta in Hsteps. fold w' r1 r2 r3 r4 r5 in Hsteps.
  destruct Hsteps as (H1 & H2 & H3 & H4 & H5).
  apply Forall_app in Hno as (F1 & Hno). apply Forall_app in Hno as (F2 & Hno).
  apply Forall_app in Hno as (F3 & F4).
  assert (Hout := DeployStack_unfold W w s). cbn zeta in Hout.
  fold w' r1 r2 r3 r4 r5 in Hout. unfold emitted. rewrite Hout. clear Hout.
  split; [by intros e ->|]. split; [by intros -> e ->|].
  split; [by intros -> -> e ->|]. split; [by intros -> -> -> e ->|].
  split; [by intros -> -> -> ->|].
  split; [|split].
  - destruct (fst r1); [|destruct (fst r2); [|destruct (fst r3); [|destruct (fst r4)]]];
      cbn [snd]; rewrite ?H1, ?H2, ?H3, ?H4, ?H5, drop_app_length;
      change (EvNow :: ?l) with ([EvNow] ++ l);
      rewrite ?statted_app, ?statted_stepEvents, ?statted_attempts; cbn [statted omap app].
    all: eexists; reflexivity.
  - rewrite H4, drop_app_length. change (EvNow :: ?l) with ([EvNow] ++ l).
    rewrite !started_app, !started_stepEvents. cbn [started omap app].
    rewrite !Forall_app. by repeat split.
  - intros Hex.
    assert (Hnone : forall l, Forall (fun c => cmd_command c <> "sls") l ->
                      ~ Exists (fun c => cmd_command c = "sls") l).
    { intros l Hl [c [Hc Hsls]]%Exists_exists. rewrite Forall_forall in Hl.
      by apply (Hl c). }
    destruct (fst r1); [|destruct (fst r2); [|destruct (fst r3); [|destruct (fst r4)]]];
      [exfalso; revert Hex; cbn [snd]..|done];
      rewrite ?H1, ?H2, ?H3, ?H4, drop_app_length;
      change (EvNow :: ?l) with ([EvNow] ++ l);
      rewrite ?started_app, ?started_stepEvents; cbn [started omap app];
      apply Hnone; rewrite ?Forall_app; by repeat split.
Qed.

Example DeployStack_aborts :
  let r := DeployStack (worldJava "exit status 1") demoWrapper initSys in
  snd (fst r) = Some (errors_New "exit status 1") /\
  trace (snd r) = [EvNow; EvStat "app/java8"; EvExec (mvnPackage "app/java8")].
Proof. split; reflexivity. Qed.

Example DeployStack_no_runtime :
  let r := DeployStack worldThirdTimeLucky demoWrapper initSys in
  statted (trace (snd r)) = ["app/java8"; "app/java11"; "app/csharp"; "app/golang"] /\
  started (trace (snd r)) =
    replicate 3 (mkCmd "sls" ["deploy"; "--no-aws-s3-accelerate"; "--suffix";
                              "1572000000000000000"] "app" []).
Proof. split; reflexivity. Qed.

(** C3, as the code has it.  [DeployStack] sets the suffix to the decimal
    rendering of the nanosecond clock reading and rewrites the name of
    every function: the new name is the old one with every instance of the
    placeholder replaced by the suffix, so a name that splits into [parts]
    at its placeholders becomes [parts] joined by the suffix, and no new
    name contains the placeholder.  The other fields of a function, the set
    of keys and the stack identifier are left as they were: the placeholder
    in the stack identifier is not replaced. *)
Theorem DeployStack_renames_functions (W : World) (w : Wrapper) (s : Sys) :
  let w' := fst (fst (DeployStack W w s)) in
  let sfx := FormatInt (UnixNano W (nNow s)) in
  let before := stack_Functions (stack w) in
  let after := stack_Functions (stack w') in
  suffix w' = sfx /\
  (forall k, after !! k =
     (fun v => with_Name v (Replace (Name v) "${opt:suffix}" sfx)) <$> before !! k) /\
  (forall k v parts,
     before !! k = Some v ->
     Name v = Join parts "${opt:suffix}" ->
     Forall (fun p => Contains p "${opt:suffix}" = false) parts ->
     Name <$> after !! k = Some (Join parts sfx)) /\
  (forall k v', after !! k = Some v' -> Contains (Name v') "${opt:suffix}" = false) /\
  stack_StackId (stack w') = stack_StackId (stack w).
Proof.
  cbn zeta. rewrite DeployStack_wrapper. cbn [renamed suffix stack with_Functions
    stack_Functions stack_StackId].
  split; [done|]. split; [apply renameFunctions_lookup|]. split; [|split; [|done]].
  - intros k v parts Hk Hname Hparts. rewrite renameFunctions_lookup, Hk.
    cbn. rewrite Hname. f_equal.
    by apply (Replace_Join "$" "{opt:suffix}").
  - intros k v'. rewrite renameFunctions_lookup.
    destruct (stack_Functions (stack w) !! k) as [v|]; [|done].
    intros [= <-]. cbn [with_Name Name].
    apply (Replace_no_instance "$" "{opt:suffix}").
    + apply FormatInt_nonempty.
    + apply FormatInt_fresh.
Qed.

(** C3, as the claim has it, fails for the stack identifier: after a
    deploy that succeeds, the identifier still carries the placeholder. *)
Lemma DeployStack_keeps_stack_identifier :
  let r := DeployStack worldThirdTimeLucky demoWrapper initSys in
  let w' := fst (fst r) in
  snd (fst r) = None /\
  suffix w' = "1572000000000000000" /\
  stack_StackId (stack w') = "svc-${opt:suffix}" /\
  Contains (stack_StackId (stack w')) "${opt:suffix}" = true /\
  stack_StackId (stack w') <>
    Replace (stack_StackId (stack demoWrapper)) "${opt:suffix}" (suffix w').
Proof. repeat split; try reflexivity. discriminate. Qed.

(** ** The life of a wrapper *)

Section Lifetime.

Variable W : World.

(** [ParseConfig] returns a stack exactly when it returns no error. *)
Lemma ParseConfig_result provider yamlDirPath :
  let file := ReadFile W (filepath_Join W yamlDirPath YamlName) in
  let parsed := Unmarshal W (fst file) zeroServiceStack in
  forall st,
    fst (ParseConfig W provider yamlDirPath) = Some st ->
    ParseConfig W provider yamlDirPath = (Some st, None) /\ st = fst parsed.
Proof.
  cbn zeta. intros st. unfold ParseConfig.
  destruct (ReadFile W _) as [yamlData [e|]]; [done|]. cbn [fst].
  destruct (Unmarshal W yamlData _) as [slsData [e|]]; [done|]. cbn [fst].
  destruct (negb _); [done|]. by intros [= ->].
Qed.

(** The wrapper that [New] returns holds the parsed stack, the empty
    suffix and no options. *)
Lemma New_wrapper expected dirPath w0 :
  fst (New W expected dirPath) = Some w0 ->
  fst (ParseConfig W expected dirPath) = Some (stack w0) /\
  yamlDirPath w0 = dirPath /\ suffix w0 = "" /\ Opts w0 = ∅.
Proof.
  unfold New. destruct getSLSPath as [path [e|]]; [done|].
  destruct (ParseConfig W expected dirPath) as [[st|] [e|]]; try done.
  by intros [= <-].
Qed.

(** No call changes the stack identifier or the directory. *)
Lemma calls_stack_StackId cs : forall w s,
  stack_StackId (stack (fst (calls W cs w s))) = stack_StackId (stack w) /\
  yamlDirPath (fst (calls W cs w s)) = yamlDirPath w.
Proof.
  induction cs as [|c cs IH]; intros w s; [done|].
  cbn [calls]. unfold bind.
  destruct (call W c w s) as [w1 s1] eqn:E.
  destruct (IH w1 s1) as [-> ->].
  destruct c; unfold call, bind in E.
  - pose proof (DeployStack_wrapper W w s) as Hw.
    destruct (DeployStack W w s) as [[w2 e] s2]. cbn in Hw, E.
    injection E as <- <-. by rewrite Hw.
  - destruct (RemoveStack W w s). by injection E as <- <-.
  - destruct (ListFunction W w s). by injection E as <- <-.
  - by injection E as <- <-.
Qed.

(** Until the first [DeployStack] the suffix stays empty. *)
Lemma calls_suffix cs : forall w s,
  Forall (fun c => c <> CallDeployStack) cs ->
  suffix (fst (calls W cs w s)) = suffix w.
Proof.
  induction cs as [|c cs IH]; intros w s Hcs; [done|].
  apply Forall_cons in Hcs as [Hc Hcs].
  cbn [calls]. unfold bind.
  destruct (call W c w s) as [w1 s1] eqn:E. rewrite (IH w1 s1 Hcs).
  destruct c; unfold call, bind in E; [done| | |].
  - destruct (RemoveStack W w s). by injection E as <- <-.
  - destruct (ListFunction W w s). by injection E as <- <-.
  - by injection E as <- <-.
Qed.

End Lifetime.

(** C4, as the code has it.  Whatever calls were made on a wrapper since
    [New] returned it, [StackId] returns the parsed stack identifier with
    every instance of the hyphenated placeholder "-${opt:suffix}" removed:
    an identifier that splits into [parts] at these instances is returned
    as the concatenation of [parts].  An identifier without an instance of
    the hyphenated placeholder is returned as it is, also when it carries
    the placeholder without the hyphen. *)
Theorem StackId_strips_dash_placeholder (W : World) (provider yamlDirPath : string)
    (w0 : Wrapper) (cs : list Call) (s : Sys) :
  let file := ReadFile W (filepath_Join W yamlDirPath YamlName) in
  let parsed := fst (Unmarshal W (fst file) zeroServiceStack) in
  let w := fst (calls W cs w0 s) in
  fst (New W provider yamlDirPath) = Some w0 ->
  StackId w = Replace (stack_StackId parsed) "-${opt:suffix}" "" /\
  (forall parts,
     stack_StackId parsed = Join parts "-${opt:suffix}" ->
     Forall (fun p => Contains p "-${opt:suffix}" = false) parts ->
     StackId w = Join parts "") /\
  (Contains (stack_StackId parsed) "-${opt:suffix}" = false ->
   StackId w = stack_StackId parsed).
Proof.
  intros file parsed w HNew.
  apply New_wrapper in HNew as (Hparse & _).
  apply ParseConfig_result in Hparse as [_ Hstack]. fold file parsed in Hstack.
  assert (Hid : StackId w = Replace (stack_StackId parsed) "-${opt:suffix}" "").
  { unfold StackId, w. by rewrite (proj1 (calls_stack_StackId W cs w0 s)), Hstack. }
  rewrite Hid. split; [done|]. split.
  - intros parts -> Hparts. by apply (Replace_Join "-" "${opt:suffix}").
  - intros Hnone. by apply (replace_scan_absent "-${opt:suffix}" "").
Qed.

Lemma StackId_strips_dash_placeholder_witness :
  fst (New worldThirdTimeLucky "aws" "app") = Some demoWrapper /\
  StackId (fst (calls worldThirdTimeLucky [CallDeployStack; CallRemoveStack] demoWrapper
                  initSys)) = "svc".
Proof.
  split; [reflexivity|].
  apply (StackId_strips_dash_placeholder worldThirdTimeLucky "aws" "app" demoWrapper
           [CallDeployStack; CallRemoveStack] initSys); reflexivity.
Defined.

(** C4, as the claim has it, fails: a stack identifier that carries the
    placeholder without a hyphen before it is returned with the
    placeholder still in it. *)
Lemma StackId_keeps_plain_placeholder :
  New worldPlain "aws" "app" = (Some plainWrapper, None) /\
  stack_StackId (stack plainWrapper) = "svc${opt:suffix}" /\
  StackId plainWrapper = "svc${opt:suffix}" /\
  Contains (StackId plainWrapper) "${opt:suffix}" = true /\
  StackId plainWrapper <> Replace (stack_StackId (stack plainWrapper)) "${opt:suffix}" "".
Proof. repeat split; try reflexivity. discriminate. Qed.

(** ** The processes of the three operations *)

Section Invocations.

Variable W : World.
Variable w : Wrapper.
Variable s : Sys.

Lemma execSlsCmd_started funcDir slsCmd :
  exists n, started (emitted (execSlsCmd W w funcDir slsCmd) s) =
            replicate (S n) (slsCmdOf w funcDir slsCmd).
Proof.
  destruct (execSlsCmd_events W w funcDir slsCmd s) as (n & _ & H).
  exists n. rewrite (emitted_app _ _ _ H). apply started_attempts.
Qed.

Lemma RemoveStack_started :
  exists n, started (emitted (RemoveStack W w) s) =
            replicate (S n) (slsCmdOf w (yamlDirPath w) ["remove"]).
Proof.
  destruct (execSlsCmd_started (yamlDirPath w) ["remove"]) as (n & H).
  exists n. rewrite <- H. unfold emitted, RemoveStack, bind.
  by destruct (execSlsCmd _ _ _ _ _) as [[out e] s'].
Qed.

Lemma ListFunction_started :
  exists n, started (emitted (ListFunction W w) s) =
            replicate (S n) (slsCmdOf w (yamlDirPath w) ["deploy"; "list"; "functions"]).
Proof.
  destruct (execSlsCmd_started (yamlDirPath w) ["deploy"; "list"; "functions"]) as (n & H).
  exists n. rewrite <- H. unfold emitted, ListFunction, bind.
  by destruct (execSlsCmd _ _ _ _ _) as [[out e] s'].
Qed.

(** [DeployStack] starts build tools and then, possibly, the deploy
    invocation with the suffix it has just generated. *)
Lemma DeployStack_started :
  let w' := renamed w (FormatInt (UnixNano W (nNow s))) in
  exists cmds n,
    Forall (fun c => cmd_command c <> "sls") cmds /\
    started (emitted (DeployStack W w) s) =
      cmds ++ replicate n (slsCmdOf w' (yamlDirPath w) ["deploy"; "--no-aws-s3-accelerate"]).
Proof.
  intros w'.
  destruct (DeployStack_steps W w s) as (c1 & c2 & c3 & c4 & n & _ & Hno & Hsteps).
  cbn zeta in Hsteps. fold w' in Hsteps. destruct Hsteps as (H1 & H2 & H3 & H4 & H5).
  apply Forall_app in Hno as (F1 & Hno). apply Forall_app in Hno as (F2 & Hno).
  apply Forall_app in Hno as (F3 & F4).
  unfold emitted. rewrite DeployStack_unfold. cbn zeta. fold w'.
  destruct (fst (buildJava W w' "java8" _));
    [|destruct (fst (buildJava W w' "java11" _));
      [|destruct (fst (buildCsharp W w' _)); [|destruct (fst (buildGolang W w' _))]]];
    cbn [snd]; rewrite ?H1, ?H2, ?H3, ?H4, ?H5, drop_app_length;
    change (EvNow :: ?l) with ([EvNow] ++ l);
    rewrite ?started_app, ?started_stepEvents, ?started_attempts; cbn [started omap app].
  - exists c1, 0. by rewrite app_nil_r.
  - exists (c1 ++ c2), 0. by rewrite app_nil_r, Forall_app.
  - exists ((c1 ++ c2) ++ c3), 0. by rewrite app_nil_r, !Forall_app.
  - exists (((c1 ++ c2) ++ c3) ++ c4), 0. by rewrite app_nil_r, !Forall_app.
  - exists (((c1 ++ c2) ++ c3) ++ c4), (S n). by rewrite !Forall_app.
Qed.

End Invocations.

(** C10.  Every [sls] process that [RemoveStack], [ListFunction] or
    [DeployStack] starts has the arguments of the operation, then
    "--suffix", then the suffix of the wrapper (for [DeployStack] the one it
    has just generated), then the option flags.  [RemoveStack] and
    [ListFunction] start at least one such process.  A wrapper that [New]
    returned has the empty suffix until [DeployStack] is called, so that
    [RemoveStack] and [ListFunction] pass "--suffix" followed by the empty
    string. *)
Theorem sls_invocations_carry_suffix (W : World) (w : Wrapper) (s : Sys) :
  let invocation slsCmd sfx :=
    mkCmd "sls" (slsCmd ++ ["--suffix"; sfx] ++ optFlags (Opts w)) (yamlDirPath w) [] in
  (exists n, started (emitted (RemoveStack W w) s) =
             replicate (S n) (invocation ["remove"] (suffix w))) /\
  (exists n, started (emitted (ListFunction W w) s) =
             replicate (S n) (invocation ["deploy"; "list"; "functions"] (suffix w))) /\
  (forall c, c ∈ started (emitted (DeployStack W w) s) -> cmd_command c = "sls" ->
     c = invocation ["deploy"; "--no-aws-s3-accelerate"] (FormatInt (UnixNano W (nNow s)))) /\
  (forall expected dirPath w0 cs s0,
     fst (New W expected dirPath) = Some w0 ->
     Forall (fun c => c <> CallDeployStack) cs ->
     w = fst (calls W cs w0 s0) ->
     (exists n, started (emitted (RemoveStack W w) s) =
                replicate (S n) (invocation ["remove"] "")) /\
     (exists n, started (emitted (ListFunction W w) s) =
                replicate (S n) (invocation ["deploy"; "list"; "functions"] ""))).
Proof.
  intros invocation.
  assert (Hinv : forall slsCmd, slsCmdOf w (yamlDirPath w) slsCmd = invocation slsCmd (suffix w)).
  { intros slsCmd. unfold slsCmdOf, invocation. by rewrite slsArgs_flags. }
  pose proof (RemoveStack_started W w s) as HR. rewrite Hinv in HR.
  pose proof (ListFunction_started W w s) as HL. rewrite Hinv in HL.
  split; [done|]. split; [done|]. split.
  - intros c Hc Hsls.
    destruct (DeployStack_started W w s) as (cmds & n & Hno & Hst).
    rewrite Hst in Hc. apply elem_of_app in Hc as [Hc|Hc].
    + rewrite Forall_forall in Hno. by destruct (Hno c Hc).
    + apply elem_of_replicate in Hc as [-> _].
      unfold slsCmdOf, invocation. by rewrite slsArgs_flags.
  - intros expected dirPath w0 cs s0 HNew Hcs Hw.
    apply New_wrapper in HNew as (_ & _ & Hsfx & _).
    assert (Hempty : suffix w = "") by (by rewrite Hw, calls_suffix).
    rewrite Hempty in HR, HL. by split.
Qed.

Lemma sls_invocations_carry_suffix_witness :
  fst (New worldThirdTimeLucky "aws" "app") = Some demoWrapper /\
  exists n, started (emitted (RemoveStack worldThirdTimeLucky demoWrapper) initSys) =
            replicate (S n) (mkCmd "sls" ["remove"; "--suffix"; ""] "app" []).
Proof.
  split; [reflexivity|].
  destruct (sls_invocations_carry_suffix worldThirdTimeLucky demoWrapper initSys)
    as (_ & _ & _ & H).
  destruct (H "aws" "app" demoWrapper [] initSys) as [HR _];
    [reflexivity|constructor|reflexivity|].
  exact HR.
Defined.

Example RemoveStack_before_deploy :
  trace (snd (RemoveStack (worldOf demoStack) demoWrapper initSys)) =
    [EvExec (mkCmd "sls" ["remove"; "--suffix"; ""] "app" [])].
Proof. reflexivity. Qed.

(** * Further properties of the code *)

(** ** Construction *)

(** [ParseConfig] returns either a stack or an error. *)
Lemma ParseConfig_pair (W : World) (expected dirPath : string) :
  (exists e, ParseConfig W expected dirPath = (None, Some e)) \/
  (exists st, ParseConfig W expected dirPath = (Some st, None)).
Proof.
  unfold ParseConfig.
  destruct (ReadFile W _) as [yamlData [e|]]; [by left; exists e|].
  destruct (Unmarshal W yamlData _) as [slsData [e|]]; [by left; exists e|].
  destruct (negb _); [left|right]; by eexists.
Qed.

(** X1.  [New] returns either a wrapper or an error, never both and never
    neither.  When [sls] is not found on the search path the error is
    "serverless framework is not installed", whatever the descriptor holds;
    otherwise an error of [ParseConfig] is returned as it is; otherwise the
    wrapper holds the expected provider, the path that [exec.LookPath]
    returned, the directory, the parsed stack, the empty suffix and no
    options. *)
Theorem New_outcome (W : World) (expected dirPath : string) :
  let found := LookPath W "sls" in
  let parsed := ParseConfig W expected dirPath in
  let out := New W expected dirPath in
  (fst out = None <-> snd out <> None) /\
  (snd found <> None ->
   out = (None, Some (errors_New "serverless framework is not installed"))) /\
  (snd found = None -> forall e, snd parsed = Some e -> out = (None, Some e)) /\
  (snd found = None -> snd parsed = None ->
   exists st, fst parsed = Some st /\
     out = (Some (mkWrapper expected (fst found) dirPath st "" ∅), None)).
Proof.
  intros found parsed out.
  pose proof (ParseConfig_pair W expected dirPath) as Hparsed. fold parsed in Hparsed.
  subst out. unfold New, getSLSPath. fold found parsed.
  destruct found as [path [e|]]; cbn [fst snd].
  - split; [done|]. split; [done|]. split; done.
  - destruct Hparsed as [[e ->]|[st ->]]; cbn [fst snd].
    + split; [done|]. split; [done|]. split; [by intros _ e' [= ->]|done].
    + split; [split; [done|by intros []]|]. split; [done|]. split; [done|].
      intros _ _. by exists st.
Qed.

Example New_without_sls :
  New (mkWorld (fun _ => ("", Some (errors_New "executable file not found in $PATH")))
         (ReadFile worldGcp) (Unmarshal worldGcp) joinSlash joinSlash trimSpaceASCII
         (Stat worldGcp) (UnixNano worldGcp) (Run worldGcp)) "gcp" "app" =
    (None, Some (errors_New "serverless framework is not installed")).
Proof. reflexivity. Qed.

(** ** What the operations keep *)

Lemma ParseConfig_provider (W : World) (expected dirPath : string) (st : ServiceStack) :
  fst (ParseConfig W expected dirPath) = Some st ->
  provider_Name (stack_Provider st) = expected.
Proof.
  unfold ParseConfig.
  destruct (ReadFile W _) as [yamlData [e|]]; [done|].
  destruct (Unmarshal W yamlData _) as [slsData [e|]]; [done|].
  destruct (String.eqb_spec expected (provider_Name (stack_Provider slsData))); [|done].
  by intros [= <-].
Qed.

Lemma New_provider (W : World) (expected dirPath : string) (w0 : Wrapper) :
  fst (New W expected dirPath) = Some w0 ->
  provider w0 = expected /\ slsPath w0 = fst (LookPath W "sls").
Proof.
  unfold New, getSLSPath. destruct (LookPath W "sls") as [path [e|]]; [done|].
  destruct (ParseConfig W expected dirPath) as [[st|] [e|]]; try done.
  by intros [= <-].
Qed.

(** The wrapper after one call: as before, or with one more option, or
    renamed. *)
Lemma call_wrapper (W : World) (c : Call) (w : Wrapper) (s : Sys) :
  fst (call W c w s) = w \/
  (exists opt optVal, fst (call W c w s) = with_Opts w (<[opt := optVal]> (Opts w))) \/
  (exists sfx, fst (call W c w s) = renamed w sfx).
Proof.
  destruct c; unfold call, bind.
  - right; right. exists (FormatInt (UnixNano W (nNow s))).
    rewrite <- (DeployStack_wrapper W w s). by destruct (DeployStack W w s) as [[w' e] s'].
  - left. by destruct (RemoveStack W w s).
  - left. by destruct (ListFunction W w s).
  - right; left. by exists opt, optVal.
Qed.

(** X2.  No sequence of calls changes the provider, the path of [sls], the
    directory, the project, the stage or the provider name of the stack.
    The function map keeps its keys, and every function keeps its handler,
    description, runtime and memory size: only names change.  For a wrapper
    that [New] returned, the provider name of the stack therefore stays the
    expected provider. *)
Theorem calls_keep_configuration (W : World) (w : Wrapper) (cs : list Call) (s : Sys) :
  let w' := fst (calls W cs w s) in
  provider w' = provider w /\
  slsPath w' = slsPath w /\
  yamlDirPath w' = yamlDirPath w /\
  Project w' = Project w /\
  Stage w' = Stage w /\
  (forall k, unnamed <$> ListFunctionsFromYaml w' !! k =
             unnamed <$> ListFunctionsFromYaml w !! k) /\
  (forall expected dirPath,
     fst (New W expected dirPath) = Some w ->
     provider w' = expected /\ provider_Name (stack_Provider (stack w')) = expected).
Proof.
  cbn zeta.
  assert (Hkeep : forall cs w s,
    provider (fst (calls W cs w s)) = provider w /\
    slsPath (fst (calls W cs w s)) = slsPath w /\
    yamlDirPath (fst (calls W cs w s)) = yamlDirPath w /\
    stack_Provider (stack (fst (calls W cs w s))) = stack_Provider (stack w) /\
    (forall k, unnamed <$> stack_Functions (stack (fst (calls W cs w s))) !! k =
               unnamed <$> stack_Functions (stack w) !! k)).
  { clear. intros cs. induction cs as [|c cs IH]; intros w s; [done|].
    cbn [calls]. unfold bind.
    pose proof (call_wrapper W c w s) as Hc.
    destruct (call W c w s) as [w1 s1]. cbn [fst] in Hc.
    destruct (IH w1 s1) as (-> & -> & -> & -> & Hfs).
    destruct Hc as [->|[(opt & optVal & ->)|(sfx & ->)]]; try done.
    cbn [renamed provider slsPath yamlDirPath stack with_Functions stack_Provider
         stack_Functions] in *.
    repeat split. intros k. rewrite Hfs, renameFunctions_lookup.
    by destruct (stack_Functions (stack w) !! k). }
  destruct (Hkeep cs w s) as (Hp & Hs & Hd & Hprov & Hfs).
  unfold Project, Stage, ListFunctionsFromYaml. rewrite Hprov.
  split; [done|]. split; [done|]. split; [done|]. split; [done|]. split; [done|].
  split; [done|]. intros expected dirPath HNew. split.
  - rewrite Hp. by apply New_provider in HNew as [? _].
  - apply New_wrapper in HNew as (Hparse & _). by apply ParseConfig_provider in Hparse.
Qed.

Example calls_keep_configuration_ex :
  let w' := fst (calls worldThirdTimeLucky
                   [CallSetOpt "region" "eu-west-1"; CallDeployStack; CallRemoveStack]
                   demoWrapper initSys) in
  Project w' = "proj" /\ Stage w' = "dev" /\ Opts w' !! "region" = Some "eu-west-1" /\
  Handler <$> ListFunctionsFromYaml w' !! "hello" = Some "bin/hello".
Proof. vm_compute. auto. Qed.

(** ** The build steps, beyond the claims *)

(** X3.  With its directory present, [buildCsharp] runs [dotnet restore]
    there; when that fails its error is returned and [dotnet lambda
    package] is never started; when it succeeds, [dotnet lambda package]
    runs next in the same directory and its error, or nil, is the result. *)
Theorem buildCsharp_sequence (W : World) (w : Wrapper) (s : Sys) :
  let csharpPath := path_Join W (yamlDirPath w) "csharp" in
  let restore := execCmd W w [] csharpPath "dotnet" ["restore"] (afterStat s csharpPath) in
  let package :=
    execCmd W w [] csharpPath "dotnet"
      ["lambda"; "package"; "--configuration"; "release"; "--framework";
       "netcoreapp2.1"; "--output-package"; "./deploy.zip"] (snd restore) in
  Stat W (nStat s) csharpPath = None ->
  (forall e, snd (fst restore) = Some e ->
     fst (buildCsharp W w s) = Some e /\
     started (emitted (buildCsharp W w) s) = [dotnetRestore csharpPath]) /\
  (snd (fst restore) = None ->
     fst (buildCsharp W w s) = snd (fst package) /\
     started (emitted (buildCsharp W w) s) =
       [dotnetRestore csharpPath; dotnetPackage csharpPath]).
Proof.
  intros csharpPath restore package Hstat.
  subst package restore. unfold emitted. rewrite buildCsharp_run. fold csharpPath.
  rewrite Hstat, !execCmd_run. cbn [fst snd nExec afterStat].
  unfold attemptCmd. cbn [dotnetRestore dotnetPackage cmd_Dir cmd_command cmd_Args].
  split.
  - intros e ->. split; [done|]. cbn [snd afterExec afterStat trace].
    by rewrite <- app_assoc, drop_app_length.
  - intros ->. split; [done|]. cbn [snd afterExec afterStat trace].
    by rewrite <- !app_assoc, drop_app_length.
Qed.

Lemma buildCsharp_sequence_witness :
  fst (buildCsharp worldCsharp demoWrapper initSys) = Some (errors_New "exit status 1") /\
  started (emitted (buildCsharp worldCsharp demoWrapper) initSys) =
    [dotnetRestore "app/csharp"].
Proof.
  apply (buildCsharp_sequence worldCsharp demoWrapper initSys); reflexivity.
Defined.

Example buildCsharp_packages :
  buildCsharp worldCsharp demoWrapper (mkSys [] 0 0 1) =
    (None, mkSys [EvStat "app/csharp"; EvExec (dotnetRestore "app/csharp");
                  EvExec (dotnetPackage "app/csharp")] 1 0 3).
Proof. reflexivity. Qed.

(** X4.  When [os.Stat] of a runtime directory fails with an error that is
    not a not-exist error, the build step returns that error and starts no
    process.  At the first step this ends [DeployStack] with that error
    after the clock reading and the one [os.Stat]. *)
Theorem stat_error_ends_step (W : World) (w : Wrapper) (s : Sys) (e : error) :
  let dir platform := path_Join W (yamlDirPath w) platform in
  IsNotExist e = false ->
  (forall version, Stat W (nStat s) (dir version) = Some e ->
     buildJava W w version s = (Some e, afterStat s (dir version))) /\
  (Stat W (nStat s) (dir "csharp") = Some e ->
     buildCsharp W w s = (Some e, afterStat s (dir "csharp"))) /\
  (Stat W (nStat s) (dir "golang") = Some e ->
     buildGolang W w s = (Some e, afterStat s (dir "golang"))) /\
  (Stat W (nStat s) (dir "java8") = Some e ->
     snd (fst (DeployStack W w s)) = Some e /\
     emitted (DeployStack W w) s = [EvNow; EvStat (dir "java8")]).
Proof.
  intros dir He. unfold dir.
  split; [intros version Hst; by rewrite buildJava_run, Hst, He|].
  split; [intros Hst; by rewrite buildCsharp_run, Hst, He|].
  split; [intros Hst; by rewrite buildGolang_run, Hst, He|].
  intros Hst. unfold emitted. rewrite DeployStack_unfold. cbn zeta.
  rewrite buildJava_run. cbn [renamed yamlDirPath afterNow nStat].
  rewrite Hst, He. cbn [fst snd afterStat trace].
  split; [done|]. cbn [afterNow trace]. by rewrite <- app_assoc, drop_app_length.
Qed.

Lemma stat_error_ends_step_witness :
  snd (fst (DeployStack worldStatDenied demoWrapper initSys)) =
    Some (mkError "stat: permission denied" false) /\
  emitted (DeployStack worldStatDenied demoWrapper) initSys = [EvNow; EvStat "app/java8"].
Proof.
  apply (stat_error_ends_step worldStatDenied demoWrapper initSys
           (mkError "stat: permission denied" false)); reflexivity.
Defined.

(** X5.  Build steps are not retried and never wait: [buildJava] and
    [buildGolang] start at most one process, [buildCsharp] at most two, and
    none of them sleeps or reads the clock, whatever the tools return. *)
Theorem build_steps_run_once (W : World) (w : Wrapper) (s : Sys) :
  let quiet evs := slept evs = [] /\ Forall (fun e => e <> EvNow) evs in
  (forall version,
     length (started (emitted (buildJava W w version) s)) <= 1 /\
     quiet (emitted (buildJava W w version) s)) /\
  (length (started (emitted (buildCsharp W w) s)) <= 2 /\
   quiet (emitted (buildCsharp W w) s)) /\
  (length (started (emitted (buildGolang W w) s)) <= 1 /\
   quiet (emitted (buildGolang W w) s)).
Proof.
  cbn zeta. unfold emitted. split; [intros version|split].
  - rewrite buildJava_run. destruct (Stat W _ _) as [e|];
      cbn [snd afterExec afterStat trace]; rewrite <- ?app_assoc, drop_app_length;
      cbn; repeat split; try lia; by repeat constructor.
  - rewrite buildCsharp_run. destruct (Stat W _ _) as [e|];
      [|destruct (snd (attemptCmd _ _ _ _)) as [e|]];
      cbn [snd afterExec afterStat trace]; rewrite <- ?app_assoc, drop_app_length;
      cbn; repeat split; try lia; by repeat constructor.
  - rewrite buildGolang_run. destruct (Stat W _ _) as [e|];
      cbn [snd afterExec afterStat trace]; rewrite <- ?app_assoc, drop_app_length;
      cbn; repeat split; try lia; by repeat constructor.
Qed.

(** ** Deploy, beyond the claims *)

Lemma Replace_absent s old new : Contains s old = false -> Replace s old new = s.
Proof.
  intros H. unfold Replace. destruct old; [done|].
  destruct (String.eqb _ new); [done|]. by apply replace_scan_absent.
Qed.

(** Only [DeployStack] itself reads the clock, once. *)
Lemma DeployStack_nNow (W : World) (w : Wrapper) (s : Sys) :
  nNow (snd (DeployStack W w s)) = S (nNow s).
Proof.
  rewrite DeployStack_unfold. cbn zeta.
  set (w' := renamed w _).
  assert (HJ : forall version s0, nNow (snd (buildJava W w' version s0)) = nNow s0).
  { intros version s0. rewrite buildJava_run. by destruct (Stat W _ _). }
  assert (HC : forall s0, nNow (snd (buildCsharp W w' s0)) = nNow s0).
  { intros s0. rewrite buildCsharp_run. destruct (Stat W _ _); [done|].
    by destruct (snd (attemptCmd _ _ _ _)). }
  assert (HG : forall s0, nNow (snd (buildGolang W w' s0)) = nNow s0).
  { intros s0. rewrite buildGolang_run. by destruct (Stat W _ _). }
  assert (HS : forall dir slsCmd s0, nNow (snd (execSlsCmd W w' dir slsCmd s0)) = nNow s0).
  { intros dir slsCmd s0. by destruct (execSlsCmd_shape W w' dir slsCmd s0) as (N & _ & ->). }
  destruct (fst (buildJava W w' "java8" _));
    [|destruct (fst (buildJava W w' "java11" _));
      [|destruct (fst (buildCsharp W w' _)); [|destruct (fst (buildGolang W w' _))]]];
    cbn [snd]; by rewrite ?HS, ?HG, ?HC, ?HJ.
Qed.

(** X6.  A second [DeployStack] on the same wrapper takes a new suffix from
    the next clock reading but leaves the function map as the first call
    left it: the names no longer hold the placeholder, so they keep the
    suffix of the first call. *)
Theorem DeployStack_again_keeps_names (W : World) (w : Wrapper) (s : Sys) :
  let r1 := DeployStack W w s in
  let w1 := fst (fst r1) in
  let w2 := fst (fst (DeployStack W w1 (snd r1))) in
  suffix w1 = FormatInt (UnixNano W (nNow s)) /\
  suffix w2 = FormatInt (UnixNano W (S (nNow s))) /\
  ListFunctionsFromYaml w2 = ListFunctionsFromYaml w1.
Proof.
  cbn zeta. rewrite !DeployStack_wrapper, DeployStack_nNow.
  split; [done|]. split; [done|].
  unfold ListFunctionsFromYaml. cbn [renamed stack with_Functions stack_Functions].
  apply map_eq. intros k. rewrite !renameFunctions_lookup.
  destruct (stack_Functions (stack w) !! k) as [v|]; [|done].
  unfold fmap, option_fmap, option_map. f_equal. unfold with_Name.
  cbn [Name Handler Description Runtime MemorySize]. f_equal. apply Replace_absent.
  apply (Replace_no_instance "$" "{opt:suffix}").
  - apply FormatInt_nonempty.
  - apply FormatInt_fresh.
Qed.

Example DeployStack_again_ex :
  let r1 := DeployStack (worldOf demoStack) demoWrapper initSys in
  let r2 := DeployStack (worldOf demoStack) (fst (fst r1)) (snd r1) in
  suffix (fst (fst r2)) = "1" /\
  Name <$> ListFunctionsFromYaml (fst (fst r2)) !! "hello" = Some "hello-0".
Proof. vm_compute. auto. Qed.

(** [FormatInt] tells integers apart. *)
Lemma FormatInt_inj i j : FormatInt i = FormatInt j -> i = j.
Proof.
  unfold FormatInt. intros H. apply DecimalZ.to_int_inj.
  assert (Hnn : forall z, Z.to_int z <> Decimal.Pos Decimal.Nil /\
                          Z.to_int z <> Decimal.Neg Decimal.Nil).
  { intros z. split; intros Hz; pose proof (DecimalZ.of_to z) as Hof;
      rewrite Hz in Hof; cbn in Hof; subst z; discriminate Hz. }
  assert (Hparse : forall z, NilZero.int_of_string (NilZero.string_of_int (Z.to_int z)) =
                             Some (Z.to_int z)).
  { intros z. apply NilZero.isi; apply Hnn. }
  pose proof (Hparse i) as Hi. rewrite H, Hparse in Hi. congruence.
Qed.

(** X12.  The suffix that [DeployStack] assigns is never empty, and two
    calls assign the same suffix exactly when the clock gave them the same
    reading: deploys at different instants get different suffixes. *)
Theorem DeployStack_suffix_tracks_clock (W : World) (w1 w2 : Wrapper) (s1 s2 : Sys) :
  let sfx1 := suffix (fst (fst (DeployStack W w1 s1))) in
  let sfx2 := suffix (fst (fst (DeployStack W w2 s2))) in
  sfx1 <> "" /\
  (sfx1 = sfx2 <-> UnixNano W (nNow s1) = UnixNano W (nNow s2)).
Proof.
  cbn zeta. rewrite !DeployStack_wrapper. cbn [renamed suffix].
  split; [apply FormatInt_nonempty|]. split; [apply FormatInt_inj|by intros ->].
Qed.

(** ** The retrying invoker, beyond the claims *)

Section InvokerFacts.

Variable W : World.
Variable w : Wrapper.

Lemma RemoveStack_execSlsCmd s :
  RemoveStack W w s =
  (snd (fst (execSlsCmd W w (yamlDirPath w) ["remove"] s)),
   snd (execSlsCmd W w (yamlDirPath w) ["remove"] s)).
Proof. unfold RemoveStack, bind. by destruct (execSlsCmd _ _ _ _ _) as [[out e] s']. Qed.

Lemma ListFunction_execSlsCmd s :
  ListFunction W w s =
  (snd (fst (execSlsCmd W w (yamlDirPath w) ["deploy"; "list"; "functions"] s)),
   snd (execSlsCmd W w (yamlDirPath w) ["deploy"; "list"; "functions"] s)).
Proof. unfold ListFunction, bind. by destruct (execSlsCmd _ _ _ _ _) as [[out e] s']. Qed.

(** [execSlsCmd] returns nil exactly when one of the eleven attempts that
    it may make returns nil. *)
Lemma execSlsCmd_nil_iff funcDir slsCmd s :
  let c := slsCmdOf w funcDir slsCmd in
  snd (fst (execSlsCmd W w funcDir slsCmd s)) = None <->
  exists k, k <= slsRetries /\ snd (attemptCmd W w c (nExec s + k)) = None.
Proof.
  intros c.
  destruct (attempts_exist (fun k => attemptCmd W w c (nExec s + k)) slsRetries)
    as (N & HN & Hfail & Hlast).
  rewrite (execSlsCmd_run W w funcDir slsCmd s N) by done. cbn [fst snd]. fold c.
  split.
  - intros Hnil. exists (N - 1). split; [lia|done].
  - intros (k & Hk & Hnil). destruct Hlast as [Hlast| ->]; [done|].
    destruct (decide (k = slsRetries)) as [->|Hne].
    + by replace (S slsRetries - 1) with slsRetries by lia.
    + destruct (Hfail k); [lia|done].
Qed.

(** It stops at the first attempt that returns nil. *)
Lemma execSlsCmd_first_success funcDir slsCmd s k :
  let c := slsCmdOf w funcDir slsCmd in
  k <= slsRetries ->
  snd (attemptCmd W w c (nExec s + k)) = None ->
  (forall j, j < k -> snd (attemptCmd W w c (nExec s + j)) <> None) ->
  started (emitted (execSlsCmd W w funcDir slsCmd) s) = replicate (S k) c.
Proof.
  intros c Hk Hnil Hfail. unfold emitted.
  rewrite (execSlsCmd_run W w funcDir slsCmd s (S k)); fold c.
  - cbn [snd trace]. rewrite drop_app_length, started_attempts. f_equal. lia.
  - lia.
  - intros j Hj. apply Hfail. lia.
  - left. by replace (S k - 1) with k by lia.
Qed.

End InvokerFacts.

(** X7.  [RemoveStack] and [ListFunction] return nil exactly when one of the
    first eleven attempts of their [sls] invocation returns nil, and no
    [sls] process is started after the first attempt that does: when
    attempt [k + 1] is the first to succeed, exactly [k + 1] processes are
    started. *)
Theorem RemoveStack_succeeds_iff (W : World) (w : Wrapper) (s : Sys) :
  let result slsCmd k :=
    snd (fst (execCmd W w [] (yamlDirPath w) "sls" (slsArgs w slsCmd)
                (mkSys [] 0 0 (nExec s + k)))) in
  (fst (RemoveStack W w s) = None <->
   exists k, k <= 10 /\ result ["remove"] k = None) /\
  (fst (ListFunction W w s) = None <->
   exists k, k <= 10 /\ result ["deploy"; "list"; "functions"] k = None) /\
  (forall k, k <= 10 -> result ["remove"] k = None ->
     (forall j, j < k -> result ["remove"] j <> None) ->
     length (started (emitted (RemoveStack W w) s)) = S k) /\
  (forall k, k <= 10 -> result ["deploy"; "list"; "functions"] k = None ->
     (forall j, j < k -> result ["deploy"; "list"; "functions"] j <> None) ->
     length (started (emitted (ListFunction W w) s)) = S k).
Proof.
  cbn zeta. unfold emitted.
  rewrite RemoveStack_execSlsCmd, ListFunction_execSlsCmd. cbn [fst snd].
  split; [apply execSlsCmd_nil_iff|]. split; [apply execSlsCmd_nil_iff|].
  split; intros k Hk Hnil Hfail.
  - pose proof (execSlsCmd_first_success W w (yamlDirPath w) ["remove"] s k Hk Hnil Hfail)
      as H.
    unfold emitted in H. by rewrite H, length_replicate.
  - pose proof (execSlsCmd_first_success W w (yamlDirPath w)
                  ["deploy"; "list"; "functions"] s k Hk Hnil Hfail) as H.
    unfold emitted in H. by rewrite H, length_replicate.
Qed.

Lemma RemoveStack_succeeds_iff_witness :
  length (started (emitted (RemoveStack worldThirdTimeLucky demoWrapper) initSys)) = 3.
Proof.
  destruct (RemoveStack_succeeds_iff worldThirdTimeLucky demoWrapper initSys)
    as (_ & _ & H & _).
  apply (H 2); [lia|reflexivity|].
  intros [|[|j]] Hj; [done|done|lia].
Defined.

(** X8.  The events of one [execSlsCmd], in order: the first attempt; then,
    for each retry, the attempt followed by a sleep of five seconds.  So
    there is no delay between the first attempt and the first retry, and a
    sleep follows every retry, also the last one.  There is no retry
    exactly when the first attempt returns nil, and there are ten at
    most. *)
Theorem execSlsCmd_trace (W : World) (w : Wrapper) (funcDir : string)
    (slsCmd : list string) (s : Sys) :
  let c := mkCmd "sls" (slsArgs w slsCmd) funcDir [] in
  let first := execCmd W w [] funcDir "sls" (slsArgs w slsCmd) s in
  exists n,
    n <= 10 /\
    emitted (execSlsCmd W w funcDir slsCmd) s =
      EvExec c :: concat (replicate n [EvExec c; EvSleep (5 * Second)]) /\
    (n = 0 <-> snd (fst first) = None).
Proof.
  intros c first.
  destruct (attempts_exist (fun k => attemptCmd W w c (nExec s + k)) slsRetries)
    as (N & HN & Hfail & Hlast).
  exists (N - 1). split; [unfold slsRetries in HN; lia|]. split.
  - apply emitted_app. by rewrite (execSlsCmd_run W w funcDir slsCmd s N).
  - subst first. rewrite execCmd_run. cbn [fst snd].
    change (attempt W w funcDir "sls" (slsArgs w slsCmd) (nExec s))
      with (attemptCmd W w c (nExec s)).
    split.
    + intros HN0. destruct Hlast as [Hlast|Hlast]; [|unfold slsRetries in *; lia].
      rewrite HN0, Nat.add_0_r in Hlast. done.
    + intros Hnil. destruct (decide (N - 1 = 0)) as [|Hne]; [done|].
      destruct (Hfail 0); [lia|]. by rewrite Nat.add_0_r.
Qed.

Example execSlsCmd_trace_ex :
  emitted (execSlsCmd worldThirdTimeLucky demoWrapper "app" ["remove"]) (mkSys [] 0 0 1) =
    [EvExec (mkCmd "sls" ["remove"; "--suffix"; ""] "app" []);
     EvExec (mkCmd "sls" ["remove"; "--suffix"; ""] "app" []);
     EvSleep 5000000000].
Proof. reflexivity. Qed.

(** ** Options *)

Lemma optFlags_length (opts : gmap string string) :
  length (optFlags opts) = 2 * size opts.
Proof.
  unfold optFlags. rewrite <- length_map_to_list.
  induction (map_to_list opts) as [|kv l IH]; [done|]. cbn [flat_map length app]. lia.
Qed.

Lemma optFlags_lookup (opts : gmap string string) opt optVal :
  opts !! opt = Some optVal ->
  exists pre post, optFlags opts = pre ++ ["--" +:+ opt; optVal] ++ post.
Proof.
  intros H%elem_of_map_to_list. unfold optFlags.
  apply list_elem_of_split in H as (l1 & l2 & ->).
  exists (flat_map (fun kv => ["--" +:+ kv.1; kv.2]) l1),
         (flat_map (fun kv => ["--" +:+ kv.1; kv.2]) l2).
  by rewrite flat_map_app.
Qed.

(** X9.  Every option of the wrapper reaches every [sls] process of an
    invocation: after the arguments of the operation, "--suffix" and the
    suffix, the argument list holds "--" followed by the option name and
    then the option value, next to each other, for each entry of [Opts],
    and nothing else: two arguments per option.  Without options the list
    ends with the suffix. *)
Theorem options_become_flags (W : World) (w : Wrapper) (funcDir : string)
    (slsCmd : list string) (s : Sys) :
  let head := slsCmd ++ ["--suffix"; suffix w] in
  Forall (fun c =>
    take (length head) (cmd_Args c) = head /\
    length (cmd_Args c) = length head + 2 * size (Opts w) /\
    (forall opt optVal, Opts w !! opt = Some optVal ->
       exists pre post, cmd_Args c = head ++ pre ++ ["--" +:+ opt; optVal] ++ post) /\
    (Opts w = ∅ -> cmd_Args c = head))
    (started (emitted (execSlsCmd W w funcDir slsCmd) s)).
Proof.
  intros head.
  destruct (execSlsCmd_started W w s funcDir slsCmd) as (n & ->).
  apply Forall_replicate. unfold slsCmdOf. cbn [cmd_Args].
  assert (Hargs : slsArgs w slsCmd = head ++ optFlags (Opts w)).
  { rewrite slsArgs_flags. unfold head. by rewrite <- app_assoc. }
  rewrite Hargs. split; [by rewrite take_app_length|].
  split; [by rewrite length_app, optFlags_length|]. split.
  - intros opt optVal (pre & post & ->)%optFlags_lookup. by exists pre, post.
  - intros ->. unfold optFlags. rewrite map_to_list_empty. cbn. by rewrite app_nil_r.
Qed.

(** The two options of [optsWrapper] reach the process in one order or the
    other. *)
Example options_become_flags_ex :
  let args flags := ["remove"; "--suffix"; ""] ++ flags in
  let cmds := started (emitted (RemoveStack (worldOf demoStack) optsWrapper) initSys) in
  cmds = [mkCmd "sls" (args ["--verbose"; "true"; "--region"; "eu-west-1"]) "app" []] \/
  cmds = [mkCmd "sls" (args ["--region"; "eu-west-1"; "--verbose"; "true"]) "app" []].
Proof. left. reflexivity. Qed.

(** ** The processes of a whole session *)

Section Session.

Variable W : World.

Lemma extends_refl P s : extends P s s.
Proof. exists []. by rewrite app_nil_r. Qed.

Lemma extends_trans P s1 s2 s3 : extends P s1 s2 -> extends P s2 s3 -> extends P s1 s3.
Proof.
  intros (e1 & H1 & F1) (e2 & H2 & F2). exists (e1 ++ e2).
  rewrite H2, H1, <- app_assoc, started_app, Forall_app. done.
Qed.

Lemma extends_stat P s p : extends P s (afterStat s p).
Proof. exists [EvStat p]. split; [done|]. constructor. Qed.

Lemma extends_exec (P : Cmd -> Prop) s c : P c -> extends P s (afterExec s c).
Proof. intros Hc. exists [EvExec c]. split; [done|]. by repeat constructor. Qed.

Lemma buildJava_allowed w version s :
  version = "java8" \/ version = "java11" ->
  extends (allowedProcess W (yamlDirPath w)) s (snd (buildJava W w version s)).
Proof.
  intros Hv. rewrite buildJava_run. destruct (Stat W _ _) as [e|]; cbn [snd].
  - apply extends_stat.
  - eapply extends_trans; [apply extends_stat|]. apply extends_exec.
    unfold allowedProcess. destruct Hv as [-> | ->]; auto.
Qed.

Lemma buildCsharp_allowed w s :
  extends (allowedProcess W (yamlDirPath w)) s (snd (buildCsharp W w s)).
Proof.
  rewrite buildCsharp_run. destruct (Stat W _ _) as [e|]; cbn [snd].
  - apply extends_stat.
  - destruct (snd (attemptCmd _ _ _ _)) as [e|]; cbn [snd];
      (eapply extends_trans; [apply extends_stat|]).
    + apply extends_exec. unfold allowedProcess. auto.
    + eapply extends_trans; apply extends_exec; unfold allowedProcess; auto.
Qed.

Lemma buildGolang_allowed w s :
  extends (allowedProcess W (yamlDirPath w)) s (snd (buildGolang W w s)).
Proof.
  rewrite buildGolang_run. destruct (Stat W _ _) as [e|]; cbn [snd].
  - apply extends_stat.
  - eapply extends_trans; [apply extends_stat|]. apply extends_exec.
    unfold allowedProcess. auto 6.
Qed.

Lemma execSlsCmd_allowed w slsCmd s :
  slsCmd ∈ slsSubcommands ->
  extends (allowedProcess W (yamlDirPath w)) s
    (snd (execSlsCmd W w (yamlDirPath w) slsCmd s)).
Proof.
  intros Hsub. destruct (execSlsCmd_events W w (yamlDirPath w) slsCmd s) as (n & _ & H).
  eexists. split; [exact H|]. rewrite started_attempts. apply Forall_replicate.
  unfold allowedProcess. do 5 right. exists slsCmd, (suffix w), (optFlags (Opts w)).
  split; [done|]. unfold slsCmdOf. by rewrite slsArgs_flags.
Qed.

Lemma DeployStack_allowed w s :
  extends (allowedProcess W (yamlDirPath w)) s (snd (DeployStack W w s)).
Proof.
  rewrite DeployStack_unfold. cbn zeta. set (w' := renamed w _).
  change (yamlDirPath w) with (yamlDirPath w').
  set (P := allowedProcess W (yamlDirPath w')).
  assert (H0 : extends P s (afterNow s)) by (exists [EvNow]; split; [done|constructor]).
  pose proof (buildJava_allowed w' "java8" (afterNow s) (or_introl eq_refl)) as H1.
  pose proof (buildJava_allowed w' "java11" (snd (buildJava W w' "java8" (afterNow s)))
                (or_intror eq_refl)) as H2.
  pose proof (buildCsharp_allowed w'
                (snd (buildJava W w' "java11" (snd (buildJava W w' "java8" (afterNow s))))))
    as H3.
  pose proof (buildGolang_allowed w' (snd (buildCsharp W w'
                (snd (buildJava W w' "java11" (snd (buildJava W w' "java8" (afterNow s))))))))
    as H4.
  pose proof (execSlsCmd_allowed w' ["deploy"; "--no-aws-s3-accelerate"]
                (snd (buildGolang W w' (snd (buildCsharp W w'
                (snd (buildJava W w' "java11" (snd (buildJava W w' "java8" (afterNow s)))))))))
                ltac:(unfold slsSubcommands; apply list_elem_of_here)) as H5.
  fold P in H1, H2, H3, H4, H5.
  pose proof (extends_trans _ _ _ _ H0 H1) as K1.
  pose proof (extends_trans _ _ _ _ K1 H2) as K2.
  pose proof (extends_trans _ _ _ _ K2 H3) as K3.
  pose proof (extends_trans _ _ _ _ K3 H4) as K4.
  pose proof (extends_trans _ _ _ _ K4 H5) as K5.
  destruct (fst (buildJava W w' "java8" _));
    [|destruct (fst (buildJava W w' "java11" _));
      [|destruct (fst (buildCsharp W w' _)); [|destruct (fst (buildGolang W w' _))]]];
    cbn [snd]; assumption.
Qed.

Lemma calls_allowed cs : forall w s,
  extends (allowedProcess W (yamlDirPath w)) s (snd (calls W cs w s)).
Proof.
  induction cs as [|c cs IH]; intros w s; [apply extends_refl|].
  cbn [calls]. unfold bind.
  assert (Hc : extends (allowedProcess W (yamlDirPath w)) s (snd (call W c w s)) /\
               yamlDirPath (fst (call W c w s)) = yamlDirPath w).
  { destruct c; unfold call, bind.
    - pose proof (DeployStack_allowed w s) as H.
      pose proof (DeployStack_wrapper W w s) as Hw.
      destruct (DeployStack W w s) as [[w' e] s']. cbn [fst snd ret] in *. by subst w'.
    - rewrite RemoveStack_execSlsCmd. cbn [fst snd ret]. split; [|done].
      apply execSlsCmd_allowed. unfold slsSubcommands. apply list_elem_of_further, list_elem_of_here.
    - rewrite ListFunction_execSlsCmd. cbn [fst snd ret]. split; [|done].
      apply execSlsCmd_allowed. unfold slsSubcommands.
      do 2 apply list_elem_of_further. apply list_elem_of_here.
    - split; [apply extends_refl|done]. }
  destruct (call W c w s) as [w1 s1]. cbn [fst snd] in Hc. destruct Hc as [Hc Hdir].
  eapply extends_trans; [exact Hc|]. rewrite <- Hdir. apply IH.
Qed.

End Session.

(** X10.  Whatever sequence of [DeployStack], [RemoveStack], [ListFunction]
    and option assignments is run on a wrapper, every process it starts is
    one of six command lines: [mvn package] in the [java8] or [java11]
    directory, [dotnet restore] or [dotnet lambda package] with its fixed
    arguments in the [csharp] directory, [go build] with its fixed arguments
    in the [golang] directory, or [sls] in the descriptor directory with one
    of the three subcommands followed by "--suffix", a suffix and option
    flags.  Each of them has a nil [Env], the one of [go build] included. *)
Theorem session_processes (W : World) (w : Wrapper) (cs : list Call) (s : Sys) :
  Forall (fun c => allowedProcess W (yamlDirPath w) c /\ cmd_Env c = [])
    (started (emitted (calls W cs w) s)).
Proof.
  destruct (calls_allowed W cs w s) as (evs & Htrace & Hall).
  rewrite (emitted_app _ _ _ Htrace). eapply Forall_impl; [exact Hall|].
  intros c Hc. split; [done|].
  destruct Hc as [->|[->|[->|[->|[->|(slsCmd & sfx & flags & _ & ->)]]]]]; done.
Qed.

Example session_processes_ex :
  started (emitted (calls worldGolang [CallDeployStack; CallRemoveStack] demoWrapper) initSys) =
    [goBuild "app/golang";
     mkCmd "sls" ["deploy"; "--no-aws-s3-accelerate"; "--suffix"; "1572000000000000000"]
       "app" [];
     mkCmd "sls" ["remove"; "--suffix"; "1572000000000000000"] "app" []].
Proof. reflexivity. Qed.

(** ** How the operations compose *)

(** X11.  After a [DeployStack], whether it succeeded or not, and any
    later calls other than [DeployStack], [RemoveStack] passes the suffix of
    that deploy: its [sls] processes run in the descriptor directory with
    the arguments "remove", "--suffix", the decimal clock reading of the
    deploy, and the flags of the options set by then. *)
Theorem RemoveStack_after_DeployStack (W : World) (w : Wrapper) (s : Sys)
    (cs : list Call) (s1 s2 : Sys) :
  let w1 := fst (fst (DeployStack W w s)) in
  let w2 := fst (calls W cs w1 s1) in
  Forall (fun c => c <> CallDeployStack) cs ->
  exists n,
    started (emitted (RemoveStack W w2) s2) =
    replicate (S n)
      (mkCmd "sls"
         (["remove"; "--suffix"; FormatInt (UnixNano W (nNow s))] ++ optFlags (Opts w2))
         (yamlDirPath w) []).
Proof.
  intros w1 w2 Hcs.
  destruct (RemoveStack_started W w2 s2) as (n & ->). exists n. f_equal.
  unfold slsCmdOf. rewrite slsArgs_flags.
  assert (Hsfx : suffix w2 = FormatInt (UnixNano W (nNow s))).
  { unfold w2. rewrite calls_suffix by done. unfold w1. by rewrite DeployStack_wrapper. }
  assert (Hdir : yamlDirPath w2 = yamlDirPath w).
  { unfold w2. rewrite (proj2 (calls_stack_StackId W cs w1 s1)).
    unfold w1. by rewrite DeployStack_wrapper. }
  by rewrite Hsfx, Hdir.
Qed.

Lemma RemoveStack_after_DeployStack_witness :
  exists n,
    started (emitted (RemoveStack worldThirdTimeLucky
                        (fst (calls worldThirdTimeLucky [CallListFunction]
                                (fst (fst (DeployStack worldThirdTimeLucky demoWrapper initSys)))
                                initSys))) initSys) =
    replicate (S n) (mkCmd "sls" ["remove"; "--suffix"; "1572000000000000000"] "app" []).
Proof.
  apply (RemoveStack_after_DeployStack worldThirdTimeLucky demoWrapper initSys
           [CallListFunction] initSys initSys).
  by repeat constructor.
Defined.

(** X13.  When none of the four runtime directories exists and the first
    attempt of the deploy invocation succeeds, [DeployStack] returns nil
    after reading the clock, statting the four directories in order and
    starting exactly one process: [sls deploy --no-aws-s3-accelerate
    --suffix] with the new suffix and the option flags, in the descriptor
    directory. *)
Theorem DeployStack_without_runtimes (W : World) (w : Wrapper) (s : Sys) :
  let dir platform := path_Join W (yamlDirPath w) platform in
  let absent k platform :=
    exists e, Stat W (nStat s + k) (dir platform) = Some e /\ IsNotExist e = true in
  let args :=
    ["deploy"; "--no-aws-s3-accelerate"; "--suffix"; FormatInt (UnixNano W (nNow s))]
      ++ optFlags (Opts w) in
  absent 0 "java8" -> absent 1 "java11" -> absent 2 "csharp" -> absent 3 "golang" ->
  snd (fst (execCmd W w [] (yamlDirPath w) "sls" args (mkSys [] 0 0 (nExec s)))) = None ->
  snd (fst (DeployStack W w s)) = None /\
  emitted (DeployStack W w) s =
    [EvNow; EvStat (dir "java8"); EvStat (dir "java11"); EvStat (dir "csharp");
     EvStat (dir "golang"); EvExec (mkCmd "sls" args (yamlDirPath w) [])].
Proof.
  intros dir absent args (e1 & S1 & N1) (e2 & S2 & N2) (e3 & S3 & N3) (e4 & S4 & N4) Hok.
  rewrite Nat.add_0_r in S1.
  replace (nStat s + 1) with (S (nStat s)) in S2 by lia.
  replace (nStat s + 2) with (S (S (nStat s))) in S3 by lia.
  replace (nStat s + 3) with (S (S (S (nStat s)))) in S4 by lia.
  unfold emitted. rewrite DeployStack_unfold. cbn zeta.
  set (w' := renamed w (FormatInt (UnixNano W (nNow s)))).
  change (yamlDirPath w') with (yamlDirPath w).
  rewrite (buildJava_run W w' "java8"). change (yamlDirPath w') with (yamlDirPath w).
  fold (dir "java8"). cbn [afterNow nStat]. rewrite S1, N1. cbn [fst snd].
  rewrite (buildJava_run W w' "java11"). change (yamlDirPath w') with (yamlDirPath w).
  fold (dir "java11"). cbn [afterStat afterNow nStat]. rewrite S2, N2. cbn [fst snd].
  rewrite buildCsharp_run. change (yamlDirPath w') with (yamlDirPath w).
  fold (dir "csharp"). cbn [afterStat afterNow nStat]. rewrite S3, N3. cbn [fst snd].
  rewrite buildGolang_run. change (yamlDirPath w') with (yamlDirPath w).
  fold (dir "golang"). cbn [afterStat afterNow nStat]. rewrite S4, N4. cbn [fst snd].
  assert (Hargs : slsArgs w' ["deploy"; "--no-aws-s3-accelerate"] = args).
  { by rewrite slsArgs_flags. }
  rewrite (execSlsCmd_run W w' (yamlDirPath w) ["deploy"; "--no-aws-s3-accelerate"] _ 1).
  - cbn [fst snd trace nExec replicate concat]. unfold slsCmdOf, attemptCmd.
    cbn [cmd_Dir cmd_command cmd_Args]. rewrite Hargs, Nat.add_0_r.
    split; [exact Hok|]. cbn [afterStat afterNow trace].
    rewrite <- !app_assoc. by rewrite drop_app_length.
  - unfold slsRetries. lia.
  - intros k Hk. lia.
  - left. cbn [nExec]. unfold slsCmdOf, attemptCmd. cbn [cmd_Dir cmd_command cmd_Args].
    rewrite Hargs, Nat.add_0_r. exact Hok.
Qed.

Lemma DeployStack_without_runtimes_witness :
  snd (fst (DeployStack worldThirdTimeLucky demoWrapper (mkSys [] 0 0 2))) = None /\
  emitted (DeployStack worldThirdTimeLucky demoWrapper) (mkSys [] 0 0 2) =
    [EvNow; EvStat "app/java8"; EvStat "app/java11"; EvStat "app/csharp";
     EvStat "app/golang";
     EvExec (mkCmd "sls" ["deploy"; "--no-aws-s3-accelerate"; "--suffix";
                          "1572000000000000000"] "app" [])].
Proof.
  apply (DeployStack_without_runtimes worldThirdTimeLucky demoWrapper (mkSys [] 0 0 2));
    try (by eexists; split; reflexivity); reflexivity.
Defined.
